(** * MIPS CPU-state helpers of [qemu/target/mips/internal.h]

    A shallow embedding of the inline helpers of the MIPS target
    (interrupt predicates, VPE/VP activity predicates, recomputation of the
    [hflags] cache) together with the [r4k_tlb_t] entry layout, and the
    properties the specification states about them.

    C integers are carried by [Z]; the conversions C performs when a value
    is stored into a 32-bit object are written out ([to_uint32],
    [to_int32]).  Bit operations are [Z.land], [Z.lor], [Z.lnot],
    [Z.shiftl], [Z.shiftr], which on [Z] act on the infinite
    two's-complement representation and so agree with C on every signed or
    unsigned operand that fits its type. *)

From Stdlib Require Import ZArith List Bool Lia Btauto.
Import ListNotations.

Local Open Scope Z_scope.
Local Open Scope bool_scope.

Declare Scope c_scope.
Delimit Scope c_scope with C.
Infix ".&" := Z.land (at level 40, left associativity) : c_scope.
Infix ".|" := Z.lor (at level 50, left associativity) : c_scope.
Infix "<<" := Z.shiftl (at level 32, left associativity) : c_scope.
Infix ">>" := Z.shiftr (at level 32, left associativity) : c_scope.
Notation "~~ x" := (Z.lnot x) (at level 30, right associativity) : c_scope.
Local Open Scope c_scope.

(** ** C scalar conversions *)

(** Value stored into a [uint32_t] object. *)
Definition to_uint32 (z : Z) : Z := z mod 2 ^ 32.

(** Value stored into an [int32_t] object (two's complement). *)
Definition to_int32 (z : Z) : Z := (z + 2 ^ 31) mod 2 ^ 32 - 2 ^ 31.

(** A scalar used as a C condition: nonzero is true. *)
Definition c_true (z : Z) : bool := negb (z =? 0).

(** ** Constants of the absent header [cpu.h]

    [internal.h] uses bit positions, masks and capability flags that
    [target/mips/cpu.h] and [mips-defs.h] define; those headers are not
    part of the sources at hand, so the constants are parameters of the
    development, gathered in one class.  [TARGET_MIPS64] selects the
    [#if defined(TARGET_MIPS64)] block of [compute_hflags]. *)
Class cpu_h : Type := {
  (* CP0 Status bit positions *)
  CP0St_CU3 : Z; CP0St_CU1 : Z; CP0St_CU0 : Z; CP0St_FR : Z; CP0St_MX : Z;
  CP0St_PX : Z; CP0St_KX : Z; CP0St_SX : Z; CP0St_UX : Z; CP0St_KSU : Z;
  CP0St_ERL : Z; CP0St_EXL : Z; CP0St_IE : Z;
  (* CP0 Cause *)
  CP0Ca_IP : Z; CP0Ca_IP_mask : Z;
  (* CP0 Config3, Config5, PageGrain *)
  CP0C3_VEIC : Z; CP0C3_LPA : Z;
  CP0C5_SBRI : Z; CP0C5_MSAEn : Z; CP0C5_FRE : Z;
  CP0PG_ELPA : Z;
  (* MT ASE *)
  CP0TCSt_IXMT : Z; CP0TCSt_A : Z;
  CP0MVPCo_EVP : Z; CP0VPEC0_VPA : Z; CP0VPCtl_DIS : Z;
  (* FPU control register 0 *)
  FCR0_F64 : Z; FCR0_FREP : Z;
  (* hflags masks *)
  MIPS_HFLAG_KSU : Z; MIPS_HFLAG_UM : Z; MIPS_HFLAG_SM : Z; MIPS_HFLAG_KM : Z;
  MIPS_HFLAG_DM : Z; MIPS_HFLAG_64 : Z; MIPS_HFLAG_CP0 : Z; MIPS_HFLAG_FPU : Z;
  MIPS_HFLAG_F64 : Z; MIPS_HFLAG_COP1X : Z; MIPS_HFLAG_AWRAP : Z;
  MIPS_HFLAG_DSP : Z; MIPS_HFLAG_DSPR2 : Z; MIPS_HFLAG_SBRI : Z;
  MIPS_HFLAG_MSA : Z; MIPS_HFLAG_FRE : Z; MIPS_HFLAG_ELPA : Z;
  MIPS_HFLAG_ERL : Z;
  (* instruction-set capability flags *)
  ISA_MIPS3 : Z; ISA_MIPS4 : Z; ISA_MIPS32 : Z; ISA_MIPS32R2 : Z;
  ISA_MIPS32R6 : Z; ISA_MIPS64R6 : Z;
  ASE_DSP : Z; ASE_DSPR2 : Z; ASE_MSA : Z;
  (* build configuration *)
  TARGET_MIPS64 : bool
}.

(** ** Data model *)

(** [struct r4k_tlb_t], internal.h lines 30-48: one-bit fields are [bool],
    wider fields [Z], [PFN[2]] a pair. *)
Record r4k_tlb_t : Type := {
  VPN : Z;
  PageMask : Z;
  ASID : Z;
  G : bool;
  C0 : Z;
  C1 : Z;
  V0 : bool;
  V1 : bool;
  D0 : bool;
  D1 : bool;
  XI0 : bool;
  XI1 : bool;
  RI0 : bool;
  RI1 : bool;
  EHINV : bool;
  PFN : Z * Z
}.

(** [struct CPUMIPSTLBContext], lines 50-66, without its table of function
    pointers. *)
Record CPUMIPSTLBContext : Type := {
  nb_tlb : Z;
  tlb_in_use : Z;
  r4k_tlb : list r4k_tlb_t
}.

(** Modelled from the spec: the declarations of [TCState],
    [CPUMIPSFPUContext], [CPUMIPSMVPContext] and [CPUMIPSState] live in the
    absent [cpu.h].  The records hold the fields [internal.h] reads or
    writes, grouped as the spec's data model groups them (thread context,
    floating-point context, control registers, mode-flags cache, capability
    mask, MMU context). *)
Record TCState : Type := {
  gpr : list Z;
  PC : Z;
  CP0_TCStatus : Z;
  CP0_TCHalt : Z;
  msacsr : Z
}.

(** Modelled from the spec: the floating-point context of the absent
    [cpu.h], with the control registers [internal.h] reads. *)
Record CPUMIPSFPUContext : Type := {
  fcr0 : Z;
  fcr31 : Z
}.

(** Modelled from the spec: the MVP context of the absent [cpu.h], shared
    by the VPEs of a core and reached through [env->mvp]. *)
Record CPUMIPSMVPContext : Type := {
  CP0_MVPControl : Z
}.

(** Modelled from the spec: the CPU state of the absent [cpu.h], with the
    fields [internal.h] reads or writes. *)
Record CPUMIPSState : Type := {
  active_tc : TCState;
  active_fpu : CPUMIPSFPUContext;
  PABITS : Z;
  PAMask : Z;
  CP0_VPControl : Z;
  CP0_VPEConf0 : Z;
  CP0_PageGrain : Z;
  CP0_Status : Z;
  CP0_Cause : Z;
  CP0_Config3 : Z;
  CP0_Config5 : Z;
  hflags : Z;
  insn_flags : Z;
  tlb : CPUMIPSTLBContext;
  mvp : CPUMIPSMVPContext
}.

(** Store into [env->hflags]. *)
Definition set_hflags (env : CPUMIPSState) (h : Z) : CPUMIPSState :=
  {| active_tc := active_tc env;
     active_fpu := active_fpu env;
     PABITS := PABITS env;
     PAMask := PAMask env;
     CP0_VPControl := CP0_VPControl env;
     CP0_VPEConf0 := CP0_VPEConf0 env;
     CP0_PageGrain := CP0_PageGrain env;
     CP0_Status := CP0_Status env;
     CP0_Cause := CP0_Cause env;
     CP0_Config3 := CP0_Config3 env;
     CP0_Config5 := CP0_Config5 env;
     hflags := h;
     insn_flags := insn_flags env;
     tlb := tlb env;
     mvp := mvp env |}.

(** ** Computations over the CPU state

    Every helper receives [CPUMIPSState *env] and may read and write
    through it: a helper is a function from the state before the call to
    its result and the state after it. *)
Definition M (A : Type) : Type := CPUMIPSState -> A * CPUMIPSState.

Definition ret {A} (a : A) : M A := fun env => (a, env).

Definition bind {A B} (m : M A) (f : A -> M B) : M B :=
  fun env => let (a, env') := m env in f a env'.

Definition get : M CPUMIPSState := fun env => (env, env).

Definition when (b : bool) (m : M unit) : M unit :=
  if b then m else ret tt.

Notation "x <- m ;; k" := (bind m (fun x => k))
  (at level 61, m at next level, right associativity) : c_scope.
Notation "m ;; k" := (bind m (fun _ => k))
  (at level 61, right associativity) : c_scope.

(** Result and final state of a call. *)
Definition result {A} (m : M A) (env : CPUMIPSState) : A := fst (m env).
Definition exec {A} (m : M A) (env : CPUMIPSState) : CPUMIPSState := snd (m env).

(** [env->hflags &= v] and [env->hflags |= v]; [hflags] is a [uint32_t]. *)
Definition hflags_and (v : Z) : M unit :=
  fun env => (tt, set_hflags env (to_uint32 (hflags env .& to_uint32 v))).

Definition hflags_or (v : Z) : M unit :=
  fun env => (tt, set_hflags env (to_uint32 (hflags env .| v))).

Section Internal.

Context {K : cpu_h}.

(** ** Interrupt predicates *)

(** [cpu_mips_hw_interrupts_enabled], internal.h lines 95-105. *)
Definition cpu_mips_hw_interrupts_enabled : M bool :=
  env <- get ;;
  ret (c_true (CP0_Status env .& (1 << CP0St_IE)) &&
       negb (c_true (CP0_Status env .& (1 << CP0St_EXL))) &&
       negb (c_true (CP0_Status env .& (1 << CP0St_ERL))) &&
       negb (c_true (hflags env .& MIPS_HFLAG_DM)) &&
       negb (c_true (CP0_TCStatus (active_tc env) .& (1 << CP0TCSt_IXMT)))).

(** [cpu_mips_hw_interrupts_pending], lines 108-129.  [pending] and
    [status] are [int32_t] locals. *)
Definition cpu_mips_hw_interrupts_pending : M bool :=
  env <- get ;;
  let pending := to_int32 (CP0_Cause env .& CP0Ca_IP_mask) in
  let status := to_int32 (CP0_Status env .& CP0Ca_IP_mask) in
  if c_true (CP0_Config3 env .& (1 << CP0C3_VEIC))
  then ret (pending >? status)
  else ret (c_true (pending .& status)).

(** ** VPE and VP activity *)

(** [mips_vpe_active], lines 194-223: [active] starts at 1 and each failed
    check assigns 0. *)
Definition mips_vpe_active : M Z :=
  env <- get ;;
  let active := 1 in
  let active :=
    if negb (c_true (CP0_MVPControl (mvp env) .& (1 << CP0MVPCo_EVP)))
    then 0 else active in
  let active :=
    if negb (c_true (CP0_VPEConf0 env .& (1 << CP0VPEC0_VPA)))
    then 0 else active in
  let active :=
    if negb (c_true (CP0_TCStatus (active_tc env) .& (1 << CP0TCSt_A)))
    then 0 else active in
  let active :=
    if c_true (CP0_TCHalt (active_tc env) .& 1)
    then 0 else active in
  ret active.

(** [mips_vp_active], lines 225-247.  The scan over the other CPUs is
    inside [#if 0] ("Unicorn: commented out"): what is compiled is the test
    of the own [DIS] bit followed by [return 1]. *)
Definition mips_vp_active : M Z :=
  env <- get ;;
  if c_true ((CP0_VPControl env >> CP0VPCtl_DIS) .& 1)
  then ret 1
  else ret 1.

(** ** Recomputation of the mode-flags cache *)

(** [compute_hflags], lines 249-349, statement by statement; each statement
    reads the state as the statements before it left it.  The block under
    [when TARGET_MIPS64] is the one inside [#if defined(TARGET_MIPS64)].
    [1 << n] is an [int] and [1U << CP0St_CU3] an [unsigned], against
    which Status is converted to [uint32_t]; shift counts are bit positions
    of 32-bit registers. *)
Definition compute_hflags : M unit :=
  hflags_and (~~ (MIPS_HFLAG_COP1X .| MIPS_HFLAG_64 .| MIPS_HFLAG_CP0 .|
                  MIPS_HFLAG_F64 .| MIPS_HFLAG_FPU .| MIPS_HFLAG_KSU .|
                  MIPS_HFLAG_AWRAP .| MIPS_HFLAG_DSP .| MIPS_HFLAG_DSPR2 .|
                  MIPS_HFLAG_SBRI .| MIPS_HFLAG_MSA .| MIPS_HFLAG_FRE .|
                  MIPS_HFLAG_ELPA .| MIPS_HFLAG_ERL)) ;;
  env <- get ;;
  when (c_true (CP0_Status env .& (1 << CP0St_ERL)))
    (hflags_or MIPS_HFLAG_ERL) ;;
  env <- get ;;
  when (negb (c_true (CP0_Status env .& (1 << CP0St_EXL))) &&
        negb (c_true (CP0_Status env .& (1 << CP0St_ERL))) &&
        negb (c_true (hflags env .& MIPS_HFLAG_DM)))
    (hflags_or ((CP0_Status env >> CP0St_KSU) .& MIPS_HFLAG_KSU)) ;;
  when TARGET_MIPS64
    (env <- get ;;
     when (c_true (insn_flags env .& ISA_MIPS3) &&
           (negb (hflags env .& MIPS_HFLAG_KSU =? MIPS_HFLAG_UM) ||
            c_true (CP0_Status env .& (1 << CP0St_PX)) ||
            c_true (CP0_Status env .& (1 << CP0St_UX))))
       (hflags_or MIPS_HFLAG_64) ;;
     env <- get ;;
     if negb (c_true (insn_flags env .& ISA_MIPS3)) then
       hflags_or MIPS_HFLAG_AWRAP
     else if (hflags env .& MIPS_HFLAG_KSU =? MIPS_HFLAG_UM) &&
             negb (c_true (CP0_Status env .& (1 << CP0St_UX))) then
       hflags_or MIPS_HFLAG_AWRAP
     else if c_true (insn_flags env .& ISA_MIPS64R6) then
       when (((hflags env .& MIPS_HFLAG_KSU =? MIPS_HFLAG_SM) &&
              negb (c_true (CP0_Status env .& (1 << CP0St_SX)))) ||
             ((hflags env .& MIPS_HFLAG_KSU =? MIPS_HFLAG_KM) &&
              negb (c_true (CP0_Status env .& (1 << CP0St_KX)))))
         (hflags_or MIPS_HFLAG_AWRAP)
     else ret tt) ;;
  env <- get ;;
  when ((c_true (CP0_Status env .& (1 << CP0St_CU0)) &&
         negb (c_true (insn_flags env .& ISA_MIPS32R6))) ||
        negb (c_true (hflags env .& MIPS_HFLAG_KSU)))
    (hflags_or MIPS_HFLAG_CP0) ;;
  env <- get ;;
  when (c_true (CP0_Status env .& (1 << CP0St_CU1)))
    (hflags_or MIPS_HFLAG_FPU) ;;
  env <- get ;;
  when (c_true (CP0_Status env .& (1 << CP0St_FR)))
    (hflags_or MIPS_HFLAG_F64) ;;
  env <- get ;;
  when (negb (hflags env .& MIPS_HFLAG_KSU =? MIPS_HFLAG_KM) &&
        c_true (CP0_Config5 env .& (1 << CP0C5_SBRI)))
    (hflags_or MIPS_HFLAG_SBRI) ;;
  env <- get ;;
  (if c_true (insn_flags env .& ASE_DSPR2) then
     when (c_true (CP0_Status env .& (1 << CP0St_MX)))
       (hflags_or (MIPS_HFLAG_DSP .| MIPS_HFLAG_DSPR2))
   else if c_true (insn_flags env .& ASE_DSP) then
     when (c_true (CP0_Status env .& (1 << CP0St_MX)))
       (hflags_or MIPS_HFLAG_DSP)
   else ret tt) ;;
  env <- get ;;
  (if c_true (insn_flags env .& ISA_MIPS32R2) then
     when (c_true (fcr0 (active_fpu env) .& (1 << FCR0_F64)))
       (hflags_or MIPS_HFLAG_COP1X)
   else if c_true (insn_flags env .& ISA_MIPS32) then
     when (c_true (hflags env .& MIPS_HFLAG_64))
       (hflags_or MIPS_HFLAG_COP1X)
   else if c_true (insn_flags env .& ISA_MIPS4) then
     when (c_true (to_uint32 (CP0_Status env) .& (1 << CP0St_CU3)))
       (hflags_or MIPS_HFLAG_COP1X)
   else ret tt) ;;
  env <- get ;;
  when (c_true (insn_flags env .& ASE_MSA))
    (when (c_true (CP0_Config5 env .& (1 << CP0C5_MSAEn)))
       (hflags_or MIPS_HFLAG_MSA)) ;;
  env <- get ;;
  when (c_true (fcr0 (active_fpu env) .& (1 << FCR0_FREP)))
    (when (c_true (CP0_Config5 env .& (1 << CP0C5_FRE)))
       (hflags_or MIPS_HFLAG_FRE)) ;;
  env <- get ;;
  when (c_true (CP0_Config3 env .& (1 << CP0C3_LPA)))
    (when (c_true (CP0_PageGrain env .& (1 << CP0PG_ELPA)))
       (hflags_or MIPS_HFLAG_ELPA)).

End Internal.

(** ** The constants at their customary values *)

(** Modelled from the spec: [cpu.h], which fixes the constants, is absent
    and the spec gives no numbers.  The instance takes the bit positions
    the MIPS architecture assigns (Status.IE is bit 0, EXL bit 1, ERL bit 2,
    KSU bits 3..4, Cause.IP bits 8..15, Config3.VEIC bit 6, ...) and
    one-bit-per-flag values for the [hflags] masks.  It serves to run the
    helpers on concrete states; the theorems are stated for every instance
    that meets their side conditions. *)
Definition mips_defs (mips64 : bool) : cpu_h := {|
  CP0St_CU3 := 31; CP0St_CU1 := 29; CP0St_CU0 := 28; CP0St_FR := 26;
  CP0St_MX := 24; CP0St_PX := 23; CP0St_KX := 7; CP0St_SX := 6;
  CP0St_UX := 5; CP0St_KSU := 3; CP0St_ERL := 2; CP0St_EXL := 1;
  CP0St_IE := 0;
  CP0Ca_IP := 8; CP0Ca_IP_mask := 0xFF00;
  CP0C3_VEIC := 6; CP0C3_LPA := 7;
  CP0C5_SBRI := 6; CP0C5_MSAEn := 27; CP0C5_FRE := 8;
  CP0PG_ELPA := 29;
  CP0TCSt_IXMT := 10; CP0TCSt_A := 13;
  CP0MVPCo_EVP := 0; CP0VPEC0_VPA := 0; CP0VPCtl_DIS := 0;
  FCR0_F64 := 22; FCR0_FREP := 29;
  MIPS_HFLAG_KSU := 0x00003; MIPS_HFLAG_UM := 0x00002;
  MIPS_HFLAG_SM := 0x00001; MIPS_HFLAG_KM := 0x00000;
  MIPS_HFLAG_DM := 0x00004; MIPS_HFLAG_64 := 0x00008;
  MIPS_HFLAG_CP0 := 0x00010; MIPS_HFLAG_FPU := 0x00020;
  MIPS_HFLAG_F64 := 0x00040; MIPS_HFLAG_COP1X := 0x00080;
  MIPS_HFLAG_AWRAP := 0x00200;
  MIPS_HFLAG_DSP := 0x080000; MIPS_HFLAG_DSPR2 := 0x100000;
  MIPS_HFLAG_SBRI := 0x400000;
  MIPS_HFLAG_MSA := 0x1000000; MIPS_HFLAG_FRE := 0x2000000;
  MIPS_HFLAG_ELPA := 0x4000000; MIPS_HFLAG_ERL := 0x10000000;
  ISA_MIPS3 := 0x00000004; ISA_MIPS4 := 0x00000008;
  ISA_MIPS32 := 0x00000020; ISA_MIPS32R2 := 0x00000040;
  ISA_MIPS32R6 := 0x00002000; ISA_MIPS64R6 := 0x00004000;
  ASE_DSP := 0x00080000; ASE_DSPR2 := 0x00100000; ASE_MSA := 0x01000000;
  TARGET_MIPS64 := mips64
|}.

(** The 32-bit and the 64-bit build. *)
Definition mips32_defs : cpu_h := mips_defs false.
Definition mips64_defs : cpu_h := mips_defs true.

(** ** Sample states *)

Definition tc_reset : TCState :=
  {| gpr := repeat 0 32; PC := 0xBFC00000;
     CP0_TCStatus := 0; CP0_TCHalt := 0; msacsr := 0 |}.

(** A state after reset: kernel mode, [ERL] and [BEV] set. *)
Definition env_reset : CPUMIPSState :=
  {| active_tc := tc_reset;
     active_fpu := {| fcr0 := 0; fcr31 := 0 |};
     PABITS := 36; PAMask := 0xFFFFFFFFF;
     CP0_VPControl := 0; CP0_VPEConf0 := 0; CP0_PageGrain := 0;
     CP0_Status := 0x00400004; CP0_Cause := 0;
     CP0_Config3 := 0; CP0_Config5 := 0;
     hflags := 0; insn_flags := 0x63;
     tlb := {| nb_tlb := 0; tlb_in_use := 0; r4k_tlb := [] |};
     mvp := {| CP0_MVPControl := 0 |} |}.

(** [env_reset] with other Status, Cause and Config3 registers. *)
Definition env_irq (status cause config3 : Z) : CPUMIPSState :=
  {| active_tc := tc_reset;
     active_fpu := active_fpu env_reset;
     PABITS := 36; PAMask := 0xFFFFFFFFF;
     CP0_VPControl := 0; CP0_VPEConf0 := 0; CP0_PageGrain := 0;
     CP0_Status := status; CP0_Cause := cause;
     CP0_Config3 := config3; CP0_Config5 := 0;
     hflags := 0; insn_flags := 0x63;
     tlb := tlb env_reset;
     mvp := mvp env_reset |}.

(** A state of a multi-threading core: the given MVPControl, VPEConf0,
    TCStatus, TCHalt and VPControl registers. *)
Definition env_mt (mvpcontrol vpeconf0 tcstatus tchalt vpcontrol : Z)
  : CPUMIPSState :=
  {| active_tc := {| gpr := repeat 0 32; PC := 0;
                     CP0_TCStatus := tcstatus; CP0_TCHalt := tchalt;
                     msacsr := 0 |};
     active_fpu := active_fpu env_reset;
     PABITS := 36; PAMask := 0xFFFFFFFFF;
     CP0_VPControl := vpcontrol; CP0_VPEConf0 := vpeconf0;
     CP0_PageGrain := 0;
     CP0_Status := 1; CP0_Cause := 0;
     CP0_Config3 := 0; CP0_Config5 := 0;
     hflags := 0; insn_flags := 0x63;
     tlb := tlb env_reset;
     mvp := {| CP0_MVPControl := mvpcontrol |} |}.

(** ** Assertions on calls *)

(** [hoare P m Q]: from a state satisfying [P], the call [m] ends with a
    result and a state satisfying [Q].  Calls are total functions, so this
    is a statement about the one outcome of the call. *)
Definition hoare {A} (P : CPUMIPSState -> Prop) (m : M A)
                 (Q : A -> CPUMIPSState -> Prop) : Prop :=
  forall env, P env -> Q (result m env) (exec m env).

(** Two states that differ at most in [hflags]. *)
Definition same_but_hflags (a b : CPUMIPSState) : Prop :=
  active_tc a = active_tc b /\ active_fpu a = active_fpu b /\
  PABITS a = PABITS b /\ PAMask a = PAMask b /\
  CP0_VPControl a = CP0_VPControl b /\ CP0_VPEConf0 a = CP0_VPEConf0 b /\
  CP0_PageGrain a = CP0_PageGrain b /\ CP0_Status a = CP0_Status b /\
  CP0_Cause a = CP0_Cause b /\ CP0_Config3 a = CP0_Config3 b /\
  CP0_Config5 a = CP0_Config5 b /\ insn_flags a = insn_flags b /\
  tlb a = tlb b /\ mvp a = mvp b.

(** ** The VP predicate as the specification words it *)

(** The own [DIS] bit of VPControl, as [mips_vp_active] tests it. *)
Definition vp_dis {K : cpu_h} (env : CPUMIPSState) : bool :=
  c_true ((CP0_VPControl env >> CP0VPCtl_DIS) .& 1).

(** The specification asks for a predicate with a toggle: with the scan
    over the other virtual processors enabled, a VP is active iff it has
    itself disabled the others or none of the others has disabled it; with
    the scan disabled, it is always active. *)
Definition spec_vp_active {K : cpu_h} (scan_enabled : bool)
    (others : list CPUMIPSState) (env : CPUMIPSState) : Z :=
  if vp_dis env then 1
  else if scan_enabled && existsb vp_dis others then 0
  else 1.

(** ** TLB lookup, probe and translation

    [internal.h] declares [r4k_map_address] and [r4k_helper_tlbp] and
    defines the entry layout [r4k_tlb_t]; the bodies of the TLB helpers are
    in files that are absent.  The definitions of this part follow
    section 4.1 of the specification on the entry record of the source. *)

Inductive MMUAccessType : Type :=
  | MMU_DATA_LOAD
  | MMU_DATA_STORE
  | MMU_INST_FETCH.

(** The exception kinds of section 7 that a TLB-backed translation
    signals. *)
Inductive tlb_exception : Type :=
  | TLB_refill
  | TLB_invalid
  | TLB_modified
  | TLB_execute_inhibit
  | TLB_read_inhibit.

Record protection : Type := {
  PAGE_READ : bool;
  PAGE_WRITE : bool;
  PAGE_EXEC : bool
}.

(** Modelled from the spec: the match test of the absent TLB helpers.
    "An entry matches if its page tag equals the address's tag masked by
    that entry's page-size selector, and (entry is global OR entry's
    address-space id equals the current one)." *)
Definition r4k_tlb_match (e : r4k_tlb_t) (tag asid : Z) : bool :=
  (VPN e =? tag .& ~~ PageMask e) && (G e || (ASID e =? asid)).

(** Modelled from the spec: the scan of the absent TLB helpers.  "Scan TLB
    entries in index order (0..capacity).  Skip invalidated entries. [...]
    On the first match [...]".  [idx] is the index of the head of
    [entries]; the result is the index and the entry selected. *)
Fixpoint r4k_tlb_scan (entries : list r4k_tlb_t) (idx : nat) (tag asid : Z)
  : option (nat * r4k_tlb_t) :=
  match entries with
  | [] => None
  | e :: rest =>
      if EHINV e then r4k_tlb_scan rest (S idx) tag asid
      else if r4k_tlb_match e tag asid then Some (idx, e)
      else r4k_tlb_scan rest (S idx) tag asid
  end.

Definition r4k_tlb_lookup (entries : list r4k_tlb_t) (tag asid : Z)
  : option (nat * r4k_tlb_t) :=
  r4k_tlb_scan entries 0 tag asid.

(** Modelled from the spec: the absent [r4k_helper_tlbp].  "TLB-probe:
    locate the index, if any, of an entry matching the current
    tag/address-space id; report not-found distinctly from index 0." *)
Definition r4k_helper_tlbp (entries : list r4k_tlb_t) (tag asid : Z)
  : option nat :=
  match r4k_tlb_lookup entries tag asid with
  | Some (i, _) => Some i
  | None => None
  end.

(** Modelled from the spec: the absent [r4k_map_address], steps 3 to 6 of
    the TLB-backed strategy.  The virtual address comes split into its
    [tag], the page-offset bit just below the page boundary ([odd]) and the
    remaining [offset] bits.  The half is chosen by [odd]; the access is
    checked against that half's valid, inhibit and dirty bits; success
    yields the half's frame number joined with the offset, and the granted
    protection. *)
Definition r4k_map_address (entries : list r4k_tlb_t) (tag : Z) (odd : bool)
    (offset asid : Z) (rw : MMUAccessType)
  : tlb_exception + Z * protection :=
  match r4k_tlb_lookup entries tag asid with
  | None => inl TLB_refill
  | Some (_, e) =>
      let v := if odd then V1 e else V0 e in
      let d := if odd then D1 e else D0 e in
      let xi := if odd then XI1 e else XI0 e in
      let ri := if odd then RI1 e else RI0 e in
      let pfn := if odd then snd (PFN e) else fst (PFN e) in
      if negb v then inl TLB_invalid
      else match rw with
           | MMU_INST_FETCH =>
               if xi then inl TLB_execute_inhibit
               else inr (pfn .| offset,
                         {| PAGE_READ := true; PAGE_WRITE := d;
                            PAGE_EXEC := true |})
           | MMU_DATA_LOAD =>
               if ri then inl TLB_read_inhibit
               else inr (pfn .| offset,
                         {| PAGE_READ := true; PAGE_WRITE := d;
                            PAGE_EXEC := negb xi |})
           | MMU_DATA_STORE =>
               if d then inr (pfn .| offset,
                              {| PAGE_READ := true; PAGE_WRITE := true;
                                 PAGE_EXEC := negb xi |})
               else inl TLB_modified
           end
  end.

(** Two tables that agree on every entry that is not invalidated: at each
    index either both entries carry the invalidated marker, or they are the
    same entry. *)
Definition same_live_entries (t1 t2 : list r4k_tlb_t) : Prop :=
  Forall2 (fun a b => (EHINV a = true /\ EHINV b = true) \/ a = b) t1 t2.

(** Sample entries: a live global 4k page, and the same entry invalidated. *)
Definition tlbe_live : r4k_tlb_t :=
  {| VPN := 0x00400000; PageMask := 0; ASID := 2; G := true;
     C0 := 3; C1 := 3; V0 := true; V1 := true; D0 := true; D1 := false;
     XI0 := false; XI1 := false; RI0 := false; RI1 := false;
     EHINV := false; PFN := (0x00012000, 0x00013000) |}.

Definition tlbe_dead : r4k_tlb_t :=
  {| VPN := 0x00400000; PageMask := 0; ASID := 2; G := true;
     C0 := 3; C1 := 3; V0 := true; V1 := true; D0 := true; D1 := false;
     XI0 := false; XI1 := false; RI0 := false; RI1 := false;
     EHINV := true; PFN := (0x00055000, 0x00056000) |}.

(** ** Notions used in the statements *)

(** The eight-bit interrupt field of Cause (pending lines) or Status
    (mask), shifted down to bit 0. *)
Definition ip_field {K : cpu_h} (reg : Z) : Z := (reg >> CP0Ca_IP) .& 255.

(** Exception level, error level or debug mode: the conditions under which
    [compute_hflags] does not copy the KSU field of Status. *)
Definition kernel_forced {K : cpu_h} (env : CPUMIPSState) : bool :=
  Z.testbit (CP0_Status env) CP0St_EXL ||
  Z.testbit (CP0_Status env) CP0St_ERL ||
  c_true (hflags env .& MIPS_HFLAG_DM).

(** The privilege-mode bits [compute_hflags] derives. *)
Definition privilege_bits {K : cpu_h} (env : CPUMIPSState) : Z :=
  if kernel_forced env then 0
  else (CP0_Status env >> CP0St_KSU) .& MIPS_HFLAG_KSU.

(** The masks of [hflags] that [compute_hflags] reads or writes. *)
Definition hflag_masks {K : cpu_h} : list Z :=
  [MIPS_HFLAG_DM; MIPS_HFLAG_ERL; MIPS_HFLAG_KSU; MIPS_HFLAG_64;
   MIPS_HFLAG_AWRAP; MIPS_HFLAG_CP0; MIPS_HFLAG_FPU; MIPS_HFLAG_F64;
   MIPS_HFLAG_SBRI; MIPS_HFLAG_DSP; MIPS_HFLAG_DSPR2; MIPS_HFLAG_COP1X;
   MIPS_HFLAG_MSA; MIPS_HFLAG_FRE; MIPS_HFLAG_ELPA].

Fixpoint each (P : Z -> Prop) (l : list Z) : Prop :=
  match l with
  | [] => True
  | a :: l' => P a /\ each P l'
  end.

Fixpoint pairwise (R : Z -> Z -> Prop) (l : list Z) : Prop :=
  match l with
  | [] => True
  | a :: l' => each (R a) l' /\ pairwise R l'
  end.

(** The layout a header gives the [hflags] masks: each is a nonzero part of
    the 32-bit word and no two overlap. *)
Definition hflags_layout {K : cpu_h} : Prop :=
  each (fun m => 0 < m < 2 ^ 32) hflag_masks /\
  pairwise (fun a b => a .& b = 0) hflag_masks.

(** During a pass that started in [env0]: nothing but [hflags] has changed
    and the bits of [hflags] under mask [m] are [v]. *)
Definition bits_are (env0 : CPUMIPSState) (m v : Z) (env : CPUMIPSState)
  : Prop :=
  same_but_hflags env0 env /\ hflags env .& m = v.

(** The function of the privilege-mode bits that decides each derived bit
    which depends on the privilege mode: the conditions of
    [compute_hflags] with [ksu] in the place of
    [env->hflags & MIPS_HFLAG_KSU]. *)
Definition flag_set (reg pos : Z) : bool := c_true (reg .& (1 << pos)).

Definition has_insn {K : cpu_h} (env : CPUMIPSState) (flag : Z) : bool :=
  c_true (insn_flags env .& flag).

Definition hflag_64_cond {K : cpu_h} (env : CPUMIPSState) (ksu : Z) : bool :=
  has_insn env ISA_MIPS3 &&
  (negb (ksu =? MIPS_HFLAG_UM) ||
   flag_set (CP0_Status env) CP0St_PX ||
   flag_set (CP0_Status env) CP0St_UX).

Definition hflag_awrap_cond {K : cpu_h} (env : CPUMIPSState) (ksu : Z)
  : bool :=
  if negb (has_insn env ISA_MIPS3) then true
  else if (ksu =? MIPS_HFLAG_UM) && negb (flag_set (CP0_Status env) CP0St_UX)
  then true
  else if has_insn env ISA_MIPS64R6 then
    ((ksu =? MIPS_HFLAG_SM) && negb (flag_set (CP0_Status env) CP0St_SX)) ||
    ((ksu =? MIPS_HFLAG_KM) && negb (flag_set (CP0_Status env) CP0St_KX))
  else false.

Definition hflag_cp0_cond {K : cpu_h} (env : CPUMIPSState) (ksu : Z) : bool :=
  (flag_set (CP0_Status env) CP0St_CU0 && negb (has_insn env ISA_MIPS32R6)) ||
  negb (c_true ksu).

Definition hflag_sbri_cond {K : cpu_h} (env : CPUMIPSState) (ksu : Z) : bool :=
  negb (ksu =? MIPS_HFLAG_KM) && flag_set (CP0_Config5 env) CP0C5_SBRI.

(** COP1X depends on the privilege mode through the 64-bit flag: its
    condition, with [h64] in the place of [env->hflags & MIPS_HFLAG_64]. *)
Definition hflag_cop1x_cond {K : cpu_h} (env : CPUMIPSState) (h64 : Z)
  : bool :=
  if has_insn env ISA_MIPS32R2 then
    flag_set (fcr0 (active_fpu env)) FCR0_F64
  else if has_insn env ISA_MIPS32 then c_true h64
  else if has_insn env ISA_MIPS4 then
    flag_set (to_uint32 (CP0_Status env)) CP0St_CU3
  else false.

(** The bits that the first statement of [compute_hflags] clears. *)
Notation "'cleared_mask'" :=
  (MIPS_HFLAG_COP1X .| MIPS_HFLAG_64 .| MIPS_HFLAG_CP0 .|
   MIPS_HFLAG_F64 .| MIPS_HFLAG_FPU .| MIPS_HFLAG_KSU .|
   MIPS_HFLAG_AWRAP .| MIPS_HFLAG_DSP .| MIPS_HFLAG_DSPR2 .|
   MIPS_HFLAG_SBRI .| MIPS_HFLAG_MSA .| MIPS_HFLAG_FRE .|
   MIPS_HFLAG_ELPA .| MIPS_HFLAG_ERL) (only parsing) : c_scope.

(** Invariants of a call, and their conjunction. *)
Definition keeps {A} (m : M A) (I : CPUMIPSState -> Prop) : Prop :=
  hoare I m (fun _ => I).

Definition both (I J : CPUMIPSState -> Prop) (env : CPUMIPSState) : Prop :=
  I env /\ J env.

(** Two virtual processors: [vp_a] has not disabled the others, [vp_b]
    has. *)
Definition vp_a : CPUMIPSState := env_mt 1 1 0x2000 0 0.
Definition vp_b : CPUMIPSState := env_mt 1 1 0x2000 0 1.

(** ** The physical-address mask *)

(** Value stored into a [uint64_t] object. *)
Definition to_uint64 (z : Z) : Z := z mod 2 ^ 64.

(** Store into [env->PAMask]. *)
Definition set_PAMask (env : CPUMIPSState) (v : Z) : CPUMIPSState :=
  {| active_tc := active_tc env;
     active_fpu := active_fpu env;
     PABITS := PABITS env;
     PAMask := v;
     CP0_VPControl := CP0_VPControl env;
     CP0_VPEConf0 := CP0_VPEConf0 env;
     CP0_PageGrain := CP0_PageGrain env;
     CP0_Status := CP0_Status env;
     CP0_Cause := CP0_Cause env;
     CP0_Config3 := CP0_Config3 env;
     CP0_Config5 := CP0_Config5 env;
     hflags := hflags env;
     insn_flags := insn_flags env;
     tlb := tlb env;
     mvp := mvp env |}.

(** [env->PAMask = v]; [PAMask] is a [uint64_t]. *)
Definition PAMask_assign (v : Z) : M unit :=
  fun env => (tt, set_PAMask env (to_uint64 v)).

(** [restore_pamask], internal.h lines 185-192.  [PAMask] is a [uint64_t]
    and [1ULL << env->PABITS] an [unsigned long long]; the macro
    [PAMASK_BASE] of the absent [cpu.h] is a parameter. *)
Definition restore_pamask {K : cpu_h} (PAMASK_BASE : Z) : M unit :=
  env <- get ;;
  if c_true (hflags env .& MIPS_HFLAG_ELPA) then
    PAMask_assign (to_uint64 (1 << PABITS env) - 1)
  else
    PAMask_assign PAMASK_BASE.

(** The customary base mask: 36 physical address bits. *)
Definition pamask_base_36 : Z := 0xFFFFFFFFF.

(** A state in which large physical addresses are supported (Config3.LPA)
    and enabled (PageGrain.ELPA), with 40 physical address bits. *)
Definition env_lpa : CPUMIPSState :=
  {| active_tc := tc_reset;
     active_fpu := active_fpu env_reset;
     PABITS := 40; PAMask := 0xFFFFFFFFF;
     CP0_VPControl := 0; CP0_VPEConf0 := 0;
     CP0_PageGrain := 0x20000000;
     CP0_Status := 0x00400004; CP0_Cause := 0;
     CP0_Config3 := 0x80; CP0_Config5 := 0;
     hflags := 0; insn_flags := 0x63;
     tlb := tlb env_reset;
     mvp := mvp env_reset |}.

(** A state with a DSP R2 core, Status.MX, CU1 and FR set, user mode. *)
Definition env_dsp : CPUMIPSState :=
  {| active_tc := tc_reset;
     active_fpu := active_fpu env_reset;
     PABITS := 36; PAMask := 0xFFFFFFFFF;
     CP0_VPControl := 0; CP0_VPEConf0 := 0; CP0_PageGrain := 0;
     CP0_Status := 0x25000011; CP0_Cause := 0;
     CP0_Config3 := 0; CP0_Config5 := 0;
     hflags := 0xFFFFFFFF; insn_flags := 0x180063;
     tlb := tlb env_reset;
     mvp := mvp env_reset |}.

(** [env_reset] with a stale CP0 flag in [hflags]. *)
Definition env_stale : CPUMIPSState := set_hflags env_reset 0x10.

(** [env_lpa] with the ELPA flag already in [hflags]. *)
Definition env_elpa : CPUMIPSState := set_hflags env_lpa 0x4000000.

(** A MIPS IV CPU at exception level, Status.KSU saying user mode. *)
Definition env_mips4_exl : CPUMIPSState :=
  {| active_tc := tc_reset;
     active_fpu := active_fpu env_reset;
     PABITS := 36; PAMask := 0xFFFFFFFFF;
     CP0_VPControl := 0; CP0_VPEConf0 := 0; CP0_PageGrain := 0;
     CP0_Status := 0x12; CP0_Cause := 0;
     CP0_Config3 := 0; CP0_Config5 := 0;
     hflags := 0; insn_flags := 0x0F;
     tlb := tlb env_reset;
     mvp := mvp env_reset |}.

(** * Properties *)

Section Properties.

Context {K : cpu_h}.

(** ** Bit-level facts *)

Lemma c_true_iff z : c_true z = true <-> z <> 0.
Proof.
  unfold c_true. rewrite negb_true_iff. apply Z.eqb_neq.
Qed.

Lemma c_true_false_iff z : c_true z = false <-> z = 0.
Proof.
  unfold c_true. rewrite negb_false_iff. apply Z.eqb_eq.
Qed.

Lemma land_pow2 x n :
  0 <= n -> x .& (1 << n) = if Z.testbit x n then 2 ^ n else 0.
Proof.
  intros Hn. rewrite Z.shiftl_1_l. apply Z.bits_inj'. intros i Hi.
  rewrite Z.land_spec, Z.pow2_bits_eqb by assumption.
  destruct (Z.eqb_spec n i) as [->|Hne].
  - destruct (Z.testbit x i); [rewrite Z.pow2_bits_true by assumption | rewrite Z.bits_0];
      reflexivity.
  - rewrite andb_false_r. destruct (Z.testbit x n).
    + rewrite Z.pow2_bits_false by assumption. reflexivity.
    + rewrite Z.bits_0. reflexivity.
Qed.

Lemma c_true_bit x n : 0 <= n -> c_true (x .& (1 << n)) = Z.testbit x n.
Proof.
  intros Hn. rewrite land_pow2 by assumption.
  destruct (Z.testbit x n); [|reflexivity].
  apply c_true_iff. pose proof (Z.pow_pos_nonneg 2 n). lia.
Qed.

Lemma to_int32_small z : - 2 ^ 31 <= z < 2 ^ 31 -> to_int32 z = z.
Proof.
  intros Hz. unfold to_int32. rewrite Z.mod_small; lia.
Qed.

Lemma land_byte_field x k :
  0 <= k -> x .& (255 << k) = ((x >> k) .& 255) << k.
Proof.
  intros Hk. apply Z.bits_inj'. intros i Hi.
  rewrite Z.land_spec, !Z.shiftl_spec, Z.land_spec by assumption.
  destruct (Z.ltb_spec i k).
  - rewrite (Z.testbit_neg_r 255) by lia. rewrite !andb_false_r. reflexivity.
  - rewrite Z.shiftr_spec by lia. replace (i - k + k) with i by lia. reflexivity.
Qed.

Lemma byte_field_range x : 0 <= x .& 255 <= 255.
Proof.
  change 255 with (Z.ones 8). rewrite Z.land_ones by lia.
  pose proof (Z.mod_pos_bound x (2 ^ 8)). change (Z.ones 8) with 255. lia.
Qed.

Lemma masked_ip_value x :
  0 <= CP0Ca_IP <= 23 -> CP0Ca_IP_mask = 255 << CP0Ca_IP ->
  x .& CP0Ca_IP_mask = ip_field x * 2 ^ CP0Ca_IP /\
  to_int32 (x .& CP0Ca_IP_mask) = x .& CP0Ca_IP_mask.
Proof.
  intros Hip Hmask.
  assert (E : x .& CP0Ca_IP_mask = ip_field x * 2 ^ CP0Ca_IP).
  { rewrite Hmask, land_byte_field by lia. unfold ip_field.
    apply Z.shiftl_mul_pow2. lia. }
  split; [exact E|]. rewrite E. apply to_int32_small.
  pose proof (byte_field_range (x >> CP0Ca_IP)) as Hb. fold (ip_field x) in Hb.
  assert (0 < 2 ^ CP0Ca_IP) by (apply Z.pow_pos_nonneg; lia).
  assert (2 ^ CP0Ca_IP <= 2 ^ 23) by (apply Z.pow_le_mono_r; lia).
  change (2 ^ 31) with (256 * 2 ^ 23). nia.
Qed.

(** ** Bits of 32-bit words *)

Lemma testbit_u32 x i : 0 <= i -> Z.testbit (to_uint32 x) i = (i <? 32) && Z.testbit x i.
Proof. intros. unfold to_uint32. apply Z.testbit_mod_pow2. lia. Qed.

Ltac bitwise :=
  apply Z.bits_inj'; intros ?i ?Hi;
  repeat first
    [ rewrite testbit_u32 by assumption
    | rewrite Z.land_spec
    | rewrite Z.lor_spec
    | rewrite Z.lnot_spec by assumption
    | rewrite Z.bits_0 ].

Lemma disjoint_bits a b i : a .& b = 0 -> Z.testbit a i && Z.testbit b i = false.
Proof. intros H. rewrite <- Z.land_spec, H. apply Z.bits_0. Qed.

Lemma u32_range x : 0 <= to_uint32 x < 2 ^ 32.
Proof. unfold to_uint32. apply Z.mod_pos_bound. lia. Qed.

Lemma high_bits m i : 0 <= m < 2 ^ 32 -> 0 <= i -> Z.testbit m i = (i <? 32) && Z.testbit m i.
Proof.
  intros Hm Hi. rewrite <- testbit_u32 by assumption. unfold to_uint32.
  rewrite Z.mod_small by assumption. reflexivity.
Qed.

Ltac bools :=
  repeat match goal with
         | |- context [Z.testbit ?a ?i] => destruct (Z.testbit a i)
         | |- context [?i <? 32] => destruct (i <? 32)
         end;
  cbn; intros; first [reflexivity | discriminate].

Lemma u32_land x m : 0 <= m < 2 ^ 32 -> to_uint32 x .& m = x .& m.
Proof.
  intros Hm. bitwise. rewrite (high_bits m i) by assumption. bools.
Qed.

Lemma or_keeps h c m : 0 <= m < 2 ^ 32 -> c .& m = 0 -> to_uint32 (h .| c) .& m = h .& m.
Proof.
  intros Hm Hc. rewrite u32_land, Z.land_lor_distr_l, Hc by assumption.
  apply Z.lor_0_r.
Qed.

Lemma or_sets h m : 0 <= m < 2 ^ 32 -> to_uint32 (h .| m) .& m = m.
Proof.
  intros Hm. rewrite u32_land by assumption. bitwise. bools.
Qed.

Lemma or_field h x m : 0 <= m < 2 ^ 32 -> h .& m = 0 -> to_uint32 (h .| (x .& m)) .& m = x .& m.
Proof.
  intros Hm Hh. rewrite u32_land by assumption. bitwise.
  generalize (disjoint_bits _ _ i Hh). bools.
Qed.

Lemma and_clears h m c : m .& ~~ c = 0 -> to_uint32 (h .& to_uint32 (~~ c)) .& m = 0.
Proof.
  intros Hm. bitwise. generalize (disjoint_bits _ _ i Hm).
  rewrite Z.lnot_spec by assumption. bools.
Qed.

Lemma and_keeps h m c : 0 <= m < 2 ^ 32 -> m .& c = 0 -> to_uint32 (h .& to_uint32 (~~ c)) .& m = h .& m.
Proof.
  intros Hm Hc. bitwise. generalize (disjoint_bits _ _ i Hc).
  rewrite (high_bits m i) by assumption. bools.
Qed.

Lemma outside_idem h c : to_uint32 (h .& to_uint32 (~~ c)) .& to_uint32 (~~ c) = h .& to_uint32 (~~ c).
Proof.
  bitwise. bools.
Qed.

Lemma inside_u32 a c : a .& ~~ c = 0 -> a .& to_uint32 (~~ c) = 0.
Proof.
  intros Ha. bitwise. generalize (disjoint_bits _ _ i Ha).
  rewrite Z.lnot_spec by assumption. bools.
Qed.

Lemma disj_lor a b m : a .& m = 0 -> b .& m = 0 -> (a .| b) .& m = 0.
Proof. intros Ha Hb. rewrite Z.land_lor_distr_l, Ha, Hb. reflexivity. Qed.

Lemma disj_land x a m : a .& m = 0 -> (x .& a) .& m = 0.
Proof. intros Ha. rewrite <- Z.land_assoc, Ha. apply Z.land_0_r. Qed.

Lemma disj_sym a m : m .& a = 0 -> a .& m = 0.
Proof. rewrite Z.land_comm. auto. Qed.

Lemma cleared_mask_covers :
  each (fun c => c .& ~~ cleared_mask = 0)
    [MIPS_HFLAG_ERL; MIPS_HFLAG_KSU; MIPS_HFLAG_64; MIPS_HFLAG_AWRAP;
     MIPS_HFLAG_CP0; MIPS_HFLAG_FPU; MIPS_HFLAG_F64; MIPS_HFLAG_SBRI;
     MIPS_HFLAG_DSP; MIPS_HFLAG_DSPR2; MIPS_HFLAG_COP1X; MIPS_HFLAG_MSA;
     MIPS_HFLAG_FRE; MIPS_HFLAG_ELPA].
Proof.
  cbn [each].
  repeat split; bitwise; btauto.
Qed.


(** ** Interrupt predicates *)

(** C1. Pending interrupts: with Config3.VEIC set the predicate holds iff
    the pending value (Cause under the IP mask) is greater than the mask
    value (Status under the IP mask); with VEIC clear it holds iff the
    bitwise AND of the two is nonzero.  In particular pending level 5
    against mask level 3 is pending in vectored mode, and pending lines
    0b0100 against mask lines 0b0110 is pending in compatibility mode. *)
Theorem cpu_mips_hw_interrupts_pending_spec
    (Hveic : 0 <= CP0C3_VEIC)
    (Hip : 0 <= CP0Ca_IP <= 23)
    (Hmask : CP0Ca_IP_mask = 255 << CP0Ca_IP)
    (env : CPUMIPSState) :
  let pending := CP0_Cause env .& CP0Ca_IP_mask in
  let status := CP0_Status env .& CP0Ca_IP_mask in
  let veic := Z.testbit (CP0_Config3 env) CP0C3_VEIC in
  let r := result cpu_mips_hw_interrupts_pending env in
  (veic = true -> (r = true <-> pending > status)) /\
  (veic = false -> (r = true <-> pending .& status <> 0)) /\
  (veic = true ->
   ip_field (CP0_Cause env) = 5 -> ip_field (CP0_Status env) = 3 ->
   r = true) /\
  (veic = false ->
   ip_field (CP0_Cause env) = 4 -> ip_field (CP0_Status env) = 6 ->
   r = true).
Proof.
  intros pending status veic r.
  destruct (masked_ip_value (CP0_Cause env) Hip Hmask) as [Ec Ic].
  destruct (masked_ip_value (CP0_Status env) Hip Hmask) as [Es Is].
  assert (Hr : r = if veic then pending >? status
                   else c_true (pending .& status)).
  { subst r veic pending status.
    unfold result, cpu_mips_hw_interrupts_pending, bind, get. cbn.
    rewrite c_true_bit, Ic, Is by assumption.
    destruct (Z.testbit (CP0_Config3 env) CP0C3_VEIC); reflexivity. }
  fold pending in Ec. fold status in Es.
  clearbody r veic pending status.
  assert (Hpos : 0 < 2 ^ CP0Ca_IP) by (apply Z.pow_pos_nonneg; lia).
  split; [|split; [|split]]; intros Hv; rewrite Hr, Hv.
  - rewrite Z.gtb_ltb, Z.ltb_lt. lia.
  - apply c_true_iff.
  - intros Hc Hs. apply Z.gtb_lt. rewrite Ec, Es, Hc, Hs. lia.
  - intros Hc Hs. apply c_true_iff.
    rewrite Ec, Es, Hc, Hs, <- !Z.shiftl_mul_pow2, <- Z.shiftl_land by lia.
    change (4 .& 6) with 4. rewrite Z.shiftl_mul_pow2 by lia. lia.
Qed.

(** C2. Interrupts are enabled iff Status.IE is set, Status.EXL and
    Status.ERL are clear, the debug-mode flag of [hflags] is clear and
    TCStatus.IXMT of the active thread context is clear; so with Status.ERL
    set the predicate is false whatever Status.IE is. *)
Theorem cpu_mips_hw_interrupts_enabled_spec
    (Hie : 0 <= CP0St_IE) (Hexl : 0 <= CP0St_EXL) (Herl : 0 <= CP0St_ERL)
    (Hixmt : 0 <= CP0TCSt_IXMT)
    (env : CPUMIPSState) :
  let r := result cpu_mips_hw_interrupts_enabled env in
  (r = true <->
   Z.testbit (CP0_Status env) CP0St_IE = true /\
   Z.testbit (CP0_Status env) CP0St_EXL = false /\
   Z.testbit (CP0_Status env) CP0St_ERL = false /\
   hflags env .& MIPS_HFLAG_DM = 0 /\
   Z.testbit (CP0_TCStatus (active_tc env)) CP0TCSt_IXMT = false) /\
  (Z.testbit (CP0_Status env) CP0St_ERL = true -> r = false).
Proof.
  intros r.
  assert (Hr : r = Z.testbit (CP0_Status env) CP0St_IE &&
                   negb (Z.testbit (CP0_Status env) CP0St_EXL) &&
                   negb (Z.testbit (CP0_Status env) CP0St_ERL) &&
                   negb (c_true (hflags env .& MIPS_HFLAG_DM)) &&
                   negb (Z.testbit (CP0_TCStatus (active_tc env)) CP0TCSt_IXMT)).
  { subst r. unfold result, cpu_mips_hw_interrupts_enabled, bind, get. cbn.
    rewrite !c_true_bit by assumption. reflexivity. }
  clearbody r. rewrite Hr. split.
  - rewrite !andb_true_iff, !negb_true_iff, c_true_false_iff. tauto.
  - intros ->. cbn. rewrite andb_false_r. reflexivity.
Qed.

(** ** VPE and VP activity *)

(** C6. A VPE is active iff MVPControl.EVP is set, VPEConf0.VPA is set,
    TCStatus.A of the active thread context is set and its halt bit is
    clear. *)
Theorem mips_vpe_active_spec
    (Hevp : 0 <= CP0MVPCo_EVP) (Hvpa : 0 <= CP0VPEC0_VPA)
    (Ha : 0 <= CP0TCSt_A)
    (env : CPUMIPSState) :
  let r := result mips_vpe_active env in
  (r = 1 <->
   Z.testbit (CP0_MVPControl (mvp env)) CP0MVPCo_EVP = true /\
   Z.testbit (CP0_VPEConf0 env) CP0VPEC0_VPA = true /\
   Z.testbit (CP0_TCStatus (active_tc env)) CP0TCSt_A = true /\
   Z.testbit (CP0_TCHalt (active_tc env)) 0 = false) /\
  (r = 0 \/ r = 1).
Proof.
  intros r. subst r.
  unfold result, mips_vpe_active, bind, get. cbn.
  change (CP0_TCHalt (active_tc env) .& 1)
    with (CP0_TCHalt (active_tc env) .& (1 << 0)).
  rewrite !c_true_bit by (assumption || lia). rewrite Z.bit0_odd.
  destruct (Z.testbit (CP0_MVPControl (mvp env)) CP0MVPCo_EVP),
           (Z.testbit (CP0_VPEConf0 env) CP0VPEC0_VPA),
           (Z.testbit (CP0_TCStatus (active_tc env)) CP0TCSt_A),
           (Z.odd (CP0_TCHalt (active_tc env)));
    cbn;
    (split;
     [ split; [intros H | intros (H1 & H2 & H3 & H4)];
       first [discriminate | repeat split]
     | first [left; reflexivity | right; reflexivity] ]).
Qed.

(** C7, as the code has it.  The scan over the other virtual processors is
    compiled out: for every state the predicate answers active, which is the
    behaviour the specification gives for a disabled scan, and it leaves
    the state alone. *)
Theorem mips_vp_active_always (env : CPUMIPSState)
    (others : list CPUMIPSState) :
  result mips_vp_active env = 1 /\
  result mips_vp_active env = spec_vp_active false others env /\
  exec mips_vp_active env = env.
Proof.
  unfold result, exec, mips_vp_active, spec_vp_active, vp_dis, bind, get. cbn.
  destruct (c_true ((CP0_VPControl env >> CP0VPCtl_DIS) .& 1));
    repeat split.
Qed.

(** C9. The two interrupt predicates leave the state as it is, and their
    answers are functions of Status, Cause, Config3, [hflags] and the
    active thread context: two states that agree on these get the same
    answers. *)
Theorem interrupt_predicates_pure (env : CPUMIPSState) :
  exec cpu_mips_hw_interrupts_enabled env = env /\
  exec cpu_mips_hw_interrupts_pending env = env /\
  forall env2 : CPUMIPSState,
    CP0_Status env2 = CP0_Status env ->
    CP0_Cause env2 = CP0_Cause env ->
    CP0_Config3 env2 = CP0_Config3 env ->
    hflags env2 = hflags env ->
    active_tc env2 = active_tc env ->
    result cpu_mips_hw_interrupts_enabled env2 =
      result cpu_mips_hw_interrupts_enabled env /\
    result cpu_mips_hw_interrupts_pending env2 =
      result cpu_mips_hw_interrupts_pending env.
Proof.
  split; [reflexivity|]. split.
  - unfold exec, cpu_mips_hw_interrupts_pending, bind, get. cbn.
    destruct (c_true (CP0_Config3 env .& (1 << CP0C3_VEIC))); reflexivity.
  - intros env2 Hs Hc Hc3 Hh Ht.
    unfold result, cpu_mips_hw_interrupts_enabled,
      cpu_mips_hw_interrupts_pending, bind, get. cbn.
    rewrite Hs, Hc, Hc3, Hh, Ht. split; [reflexivity|].
    destruct (c_true (CP0_Config3 env .& (1 << CP0C3_VEIC))); reflexivity.
Qed.

(** ** TLB entries *)

Lemma r4k_tlb_scan_sound entries : forall idx tag asid i e,
  r4k_tlb_scan entries idx tag asid = Some (i, e) ->
  (idx <= i)%nat /\ nth_error entries (i - idx) = Some e /\
  EHINV e = false.
Proof.
  induction entries as [|a rest IH]; intros idx tag asid i e; cbn.
  - discriminate.
  - destruct (EHINV a) eqn:Ea.
    + intros H. apply IH in H. destruct H as (Hle & Hn & He).
      repeat split; [lia | | exact He].
      replace (i - idx)%nat with (S (i - S idx)) by lia. exact Hn.
    + destruct (r4k_tlb_match a tag asid).
      * intros H. injection H as <- <-. rewrite Nat.sub_diag.
        repeat split; [lia | exact Ea].
      * intros H. apply IH in H. destruct H as (Hle & Hn & He).
        repeat split; [lia | | exact He].
        replace (i - idx)%nat with (S (i - S idx)) by lia. exact Hn.
Qed.

Lemma r4k_tlb_scan_live t1 t2 :
  same_live_entries t1 t2 ->
  forall idx tag asid,
    r4k_tlb_scan t1 idx tag asid = r4k_tlb_scan t2 idx tag asid.
Proof.
  induction 1 as [|a b l1 l2 Hab _ IH]; intros idx tag asid; cbn.
  - reflexivity.
  - destruct Hab as [[Ha Hb]| ->].
    + rewrite Ha, Hb. apply IH.
    + rewrite IH. reflexivity.
Qed.

(** C8. An entry whose EHINV marker is set is never the entry a lookup or
    a probe selects, for every tag and address-space id; and a translation
    does not depend on such entries: two tables that agree on their live
    entries translate every address alike. *)
Theorem invalidated_entry_never_selected
    (entries : list r4k_tlb_t) (tag asid : Z) :
  (forall i e, nth_error entries i = Some e -> EHINV e = true ->
     (forall e', r4k_tlb_lookup entries tag asid <> Some (i, e')) /\
     r4k_helper_tlbp entries tag asid <> Some i) /\
  (forall i e, r4k_tlb_lookup entries tag asid = Some (i, e) ->
     nth_error entries i = Some e /\ EHINV e = false) /\
  (forall entries2, same_live_entries entries entries2 ->
     r4k_helper_tlbp entries tag asid = r4k_helper_tlbp entries2 tag asid /\
     forall odd offset rw,
       r4k_map_address entries tag odd offset asid rw =
       r4k_map_address entries2 tag odd offset asid rw).
Proof.
  assert (Hsel : forall i e, r4k_tlb_lookup entries tag asid = Some (i, e) ->
                 nth_error entries i = Some e /\ EHINV e = false).
  { intros i e H. apply r4k_tlb_scan_sound in H.
    destruct H as (_ & Hn & He). rewrite Nat.sub_0_r in Hn. auto. }
  split; [|split].
  - intros i e Hn He. split.
    + intros e' H. apply Hsel in H. destruct H as [Hn' He'].
      congruence.
    + unfold r4k_helper_tlbp.
      destruct (r4k_tlb_lookup entries tag asid) as [[j e']|] eqn:El;
        [|discriminate].
      intros H. injection H as ->. destruct (Hsel i e' eq_refl). congruence.
  - exact Hsel.
  - intros entries2 Hlive.
    unfold r4k_helper_tlbp, r4k_map_address, r4k_tlb_lookup.
    rewrite (r4k_tlb_scan_live _ _ Hlive). split; reflexivity.
Qed.

(** ** Rules for calls *)

Lemma exec_bind {A B} (m : M A) (f : A -> M B) env :
  exec (bind m f) env = exec (f (result m env)) (exec m env).
Proof. unfold exec, result, bind. destruct (m env). reflexivity. Qed.

Lemma result_bind {A B} (m : M A) (f : A -> M B) env :
  result (bind m f) env = result (f (result m env)) (exec m env).
Proof. unfold exec, result, bind. destruct (m env). reflexivity. Qed.

Lemma hoare_bind {A B} P (m : M A) (f : A -> M B) R Q :
  hoare P m R -> (forall a, hoare (R a) (f a) Q) -> hoare P (bind m f) Q.
Proof.
  intros Hm Hf env HP. rewrite exec_bind, result_bind. apply Hf, Hm, HP.
Qed.

Lemma hoare_weaken {A} (P P' : CPUMIPSState -> Prop) (m : M A) Q :
  hoare P' m Q -> (forall e, P e -> P' e) -> hoare P m Q.
Proof. intros H HP env He. apply H, HP, He. Qed.

(** A statement that reads [env] and the statements after it. *)
Lemma hoare_stmt {A} P (s : CPUMIPSState -> M unit) (rest : M A) R Q :
  hoare P (bind get s) (fun _ => R) -> hoare R rest Q ->
  hoare P (bind get (fun env => bind (s env) (fun _ => rest))) Q.
Proof.
  intros Hs Hr env HP. specialize (Hs env HP).
  unfold hoare, exec, result, bind, get in *. cbn in *.
  destruct (s env env) as [u env1]. cbn in *. apply Hr, Hs.
Qed.

Lemma keeps_ret {A} (a : A) I : keeps (ret a) I.
Proof. intros env H. exact H. Qed.

Lemma keeps_get I : keeps get I.
Proof. intros env H. exact H. Qed.

Lemma keeps_bind {A B} (m : M A) (f : A -> M B) I :
  keeps m I -> (forall a, keeps (f a) I) -> keeps (bind m f) I.
Proof. intros Hm Hf. eapply hoare_bind; [exact Hm | exact Hf]. Qed.

Lemma keeps_when b m I : keeps m I -> keeps (when b m) I.
Proof. intros H. destruct b; [exact H | apply keeps_ret]. Qed.

Lemma keeps_if {A} (b : bool) (m1 m2 : M A) I :
  keeps m1 I -> keeps m2 I -> keeps (if b then m1 else m2) I.
Proof. intros H1 H2. destruct b; assumption. Qed.

Lemma same_but_hflags_refl e : same_but_hflags e e.
Proof. unfold same_but_hflags. repeat split. Qed.

Lemma same_but_hflags_set e env h :
  same_but_hflags e env -> same_but_hflags e (set_hflags env h).
Proof. intros H. exact H. Qed.

Lemma set_hflags_same_but e env h :
  same_but_hflags e env -> set_hflags env h = set_hflags e h.
Proof.
  unfold same_but_hflags, set_hflags.
  intros (H1 & H2 & H3 & H4 & H5 & H6 & H7 & H8 & H9 & H10 & H11 & H12 & H13 & H14).
  rewrite H1, H2, H3, H4, H5, H6, H7, H8, H9, H10, H11, H12, H13, H14.
  reflexivity.
Qed.

Lemma exec_hflags_and v env :
  exec (hflags_and v) env =
  set_hflags env (to_uint32 (hflags env .& to_uint32 v)).
Proof. reflexivity. Qed.

Lemma exec_hflags_or v env :
  exec (hflags_or v) env = set_hflags env (to_uint32 (hflags env .| v)).
Proof. reflexivity. Qed.

Lemma hflags_set_hflags env h : hflags (set_hflags env h) = h.
Proof. reflexivity. Qed.

Lemma keeps_or_frame c e : keeps (hflags_or c) (same_but_hflags e).
Proof. intros env H. exact H. Qed.

Lemma keeps_or_bits c e m v :
  0 <= m < 2 ^ 32 -> c .& m = 0 -> keeps (hflags_or c) (bits_are e m v).
Proof.
  intros Hm Hc env [Hf Hb]. split; [exact Hf|].
  unfold exec, hflags_or. cbn. rewrite or_keeps; assumption.
Qed.

Ltac keep_with tac :=
  repeat lazymatch goal with
    | |- keeps (ret _) _ => apply keeps_ret
    | |- keeps get _ => apply keeps_get
    | |- keeps (bind _ _) _ => apply keeps_bind; [| intro]
    | |- keeps (when _ _) _ => apply keeps_when
    | |- keeps (if _ then _ else _) _ => apply keeps_if
    | |- keeps (hflags_or _) _ => tac
    end.

(** ** Recomputation of the mode flags: frame and idempotence *)

Lemma compute_hflags_keeps_frame e :
  keeps compute_hflags (same_but_hflags e).
Proof.
  unfold compute_hflags. apply keeps_bind; [intros env H; exact H | intros _].
  keep_with ltac:(apply keeps_or_frame).
Qed.

Ltac inside :=
  pose proof cleared_mask_covers as Hcov; 
  cbn [each] in Hcov;
  repeat match goal with H : _ /\ _ |- _ => destruct H end.

Ltac disj :=
  repeat first
    [ assumption
    | apply inside_u32
    | apply disj_lor
    | apply disj_land
    | apply disj_sym; assumption ].

Lemma compute_hflags_outside e :
  hoare (eq e) compute_hflags
    (fun _ => bits_are e (to_uint32 (~~ cleared_mask))
                (hflags e .& to_uint32 (~~ cleared_mask))).
Proof.
  unfold compute_hflags. inside.
  eapply hoare_bind with (R := fun _ => bits_are e (to_uint32 (~~ cleared_mask))
                (hflags e .& to_uint32 (~~ cleared_mask))).
  - intros env <-. split; [apply same_but_hflags_set, same_but_hflags_refl|].
    rewrite exec_hflags_and, hflags_set_hflags. apply outside_idem.
  - intros _. match goal with |- hoare ?I ?m _ => change (keeps m I) end.
    keep_with ltac:(apply keeps_or_bits; [apply u32_range | disj]).
Qed.

Lemma exec_bind_congr {A B} (m : M A) (f : A -> M B) e1 e2 :
  m e1 = m e2 -> exec (bind m f) e1 = exec (bind m f) e2.
Proof. unfold exec, bind. intros ->. reflexivity. Qed.

Lemma compute_hflags_after_clear e1 e2 :
  exec (hflags_and (~~ cleared_mask)) e1 = exec (hflags_and (~~ cleared_mask)) e2 ->
  exec compute_hflags e1 = exec compute_hflags e2.
Proof.
  intros H. unfold compute_hflags. rewrite (exec_bind _ _ e1), (exec_bind _ _ e2).
  rewrite H. reflexivity.
Qed.

(** C4. Recomputing the mode flags twice in a row gives the state the
    first recomputation gave: the second call changes no bit of [hflags]
    (and nothing else). *)
Theorem compute_hflags_idempotent (env : CPUMIPSState) :
  exec compute_hflags (exec compute_hflags env) = exec compute_hflags env /\
  hflags (exec compute_hflags (exec compute_hflags env)) =
    hflags (exec compute_hflags env).
Proof.
  assert (E : exec compute_hflags (exec compute_hflags env) =
              exec compute_hflags env).
  { apply compute_hflags_after_clear.
    destruct (compute_hflags_outside env env eq_refl) as [Hf Hb].
    rewrite !exec_hflags_and, Hb.
    apply set_hflags_same_but, Hf. }
  split; [exact E | rewrite E; reflexivity].
Qed.

(** C5. A recomputation writes [hflags] and nothing else: every other
    field of the state (thread context, floating-point context, control
    registers, capability mask, TLB and MVP contexts) is as before, and the
    state after the call is the state before it with a new [hflags]. *)
Theorem compute_hflags_frame (env : CPUMIPSState) :
  same_but_hflags env (exec compute_hflags env) /\
  exec compute_hflags env =
    set_hflags env (hflags (exec compute_hflags env)).
Proof.
  assert (Hf : same_but_hflags env (exec compute_hflags env)).
  { apply (compute_hflags_keeps_frame env env), same_but_hflags_refl. }
  split; [exact Hf|].
  rewrite <- (set_hflags_same_but env (exec compute_hflags env)) by exact Hf.
  destruct (exec compute_hflags env). reflexivity.
Qed.

Lemma hoare_both {A} P (m : M A) (I J : CPUMIPSState -> Prop) :
  hoare P m (fun _ => I) -> hoare P m (fun _ => J) ->
  hoare P m (fun _ => both I J).
Proof. intros H1 H2 env HP. split; [apply H1 | apply H2]; exact HP. Qed.

Lemma hoare_kept {A} (P : CPUMIPSState -> Prop) (m : M A) I :
  (forall env, P env -> I env) -> keeps m I -> hoare P m (fun _ => I).
Proof. intros HP Hk env He. apply Hk, HP, He. Qed.

Lemma exec_get_bind {A} (f : CPUMIPSState -> M A) env :
  exec (bind get f) env = exec (f env) env.
Proof. reflexivity. Qed.

Lemma exec_when b m env :
  exec (when b m) env = if b then exec m env else env.
Proof. destruct b; reflexivity. Qed.

Lemma same_but_hflags_regs e env :
  same_but_hflags e env ->
  CP0_Status env = CP0_Status e /\ insn_flags env = insn_flags e /\
  CP0_Config5 env = CP0_Config5 e /\ active_fpu env = active_fpu e.
Proof.
  unfold same_but_hflags. intros H. decompose [and] H.
  repeat split; symmetry; assumption.
Qed.

(** The own bit of a statement [if (c) hflags |= m]. *)
Lemma or_own e m (b : bool) env :
  0 <= m < 2 ^ 32 -> bits_are e m 0 env ->
  bits_are e m (if b then m else 0) (exec (when b (hflags_or m)) env).
Proof.
  intros Hm [Hf Hb]. rewrite exec_when. destruct b.
  - split; [exact Hf|]. rewrite exec_hflags_or, hflags_set_hflags.
    apply or_sets, Hm.
  - split; assumption.
Qed.


(** ** The physical-address mask *)

Lemma pamask_ones n : 0 <= n < 64 ->
  to_uint64 (to_uint64 (1 << n) - 1) = 2 ^ n - 1.
Proof.
  intros Hn. unfold to_uint64. rewrite Z.shiftl_1_l.
  assert (0 < 2 ^ n) by (apply Z.pow_pos_nonneg; lia).
  assert (2 ^ n < 2 ^ 64) by (apply Z.pow_lt_mono_r; lia).
  rewrite (Z.mod_small (2 ^ n)) by lia. apply Z.mod_small. lia.
Qed.

Lemma restore_pamask_value PAMASK_BASE env :
  PAMask (exec (restore_pamask PAMASK_BASE) env) =
  if c_true (hflags env .& MIPS_HFLAG_ELPA)
  then to_uint64 (to_uint64 (1 << PABITS env) - 1)
  else to_uint64 PAMASK_BASE.
Proof.
  unfold exec, restore_pamask, bind, get. cbn [fst snd].
  destruct (c_true (hflags env .& MIPS_HFLAG_ELPA)); reflexivity.
Qed.

Lemma restore_pamask_frame PAMASK_BASE env :
  exec (restore_pamask PAMASK_BASE) env =
  set_PAMask env (PAMask (exec (restore_pamask PAMASK_BASE) env)).
Proof.
  unfold exec, restore_pamask, bind, get. cbn [fst snd].
  destruct (c_true (hflags env .& MIPS_HFLAG_ELPA)); reflexivity.
Qed.

Lemma restore_pamask_hflags PAMASK_BASE env :
  hflags (exec (restore_pamask PAMASK_BASE) env) = hflags env.
Proof.
  rewrite restore_pamask_frame. reflexivity.
Qed.

Lemma restore_pamask_twice PAMASK_BASE env :
  exec (restore_pamask PAMASK_BASE) (exec (restore_pamask PAMASK_BASE) env) =
  exec (restore_pamask PAMASK_BASE) env.
Proof.
  unfold exec, restore_pamask, bind, get. cbn [fst snd].
  destruct (c_true (hflags env .& MIPS_HFLAG_ELPA)) eqn:E;
    unfold PAMask_assign; cbn [fst snd hflags PABITS set_PAMask];
    rewrite E; reflexivity.
Qed.

(** X11. [restore_pamask] writes [PAMask] and nothing else.  With the
    ELPA flag set and [PABITS] below 64 the mask is [2^PABITS - 1],
    that is exactly the bits below [PABITS]; with the flag clear it is the
    base mask.  Restoring twice is restoring once. *)
Theorem restore_pamask_spec (PAMASK_BASE : Z) (env : CPUMIPSState) :
  0 <= PABITS env < 64 ->
  let env' := exec (restore_pamask PAMASK_BASE) env in
  env' = set_PAMask env (PAMask env') /\
  (hflags env .& MIPS_HFLAG_ELPA <> 0 ->
   PAMask env' = 2 ^ PABITS env - 1 /\
   forall i, 0 <= i -> Z.testbit (PAMask env') i = (i <? PABITS env)) /\
  (hflags env .& MIPS_HFLAG_ELPA = 0 ->
   PAMask env' = to_uint64 PAMASK_BASE) /\
  exec (restore_pamask PAMASK_BASE) env' = env'.
Proof.
  intros Hpa env'.
  assert (Hfr : env' = set_PAMask env (PAMask env'))
    by apply restore_pamask_frame.
  assert (Hv := restore_pamask_value PAMASK_BASE env). fold env' in Hv.
  split; [exact Hfr|]. split; [|split].
  - intros Hne. apply c_true_iff in Hne. rewrite Hne, pamask_ones in Hv by lia.
    split; [exact Hv|]. intros i Hi. rewrite Hv.
    change (2 ^ PABITS env - 1) with (Z.pred (2 ^ PABITS env)).
    rewrite <- Z.ones_equiv. apply Z.testbit_ones_nonneg; lia.
  - intros He. apply c_true_false_iff in He. rewrite He in Hv. exact Hv.
  - apply restore_pamask_twice.
Qed.

Section Layout.

Hypothesis L : hflags_layout.
Hypothesis Hexl : 0 <= CP0St_EXL.
Hypothesis Herl : 0 <= CP0St_ERL.

Ltac layout :=
  let Lr := fresh "Lr" in
  let Ld := fresh "Ld" in
  destruct L as [Lr Ld];
  unfold hflag_masks in Lr, Ld; cbn [each pairwise] in Lr, Ld;
  decompose [and] Lr; decompose [and] Ld; clear Lr Ld.

Ltac range := split; [apply Z.lt_le_incl|]; assumption.

Lemma stmt_ksu e :
  hoare (both (bits_are e MIPS_HFLAG_KSU 0)
              (bits_are e MIPS_HFLAG_DM (hflags e .& MIPS_HFLAG_DM)))
    (env <- get ;;
     when (negb (c_true (CP0_Status env .& (1 << CP0St_EXL))) &&
           negb (c_true (CP0_Status env .& (1 << CP0St_ERL))) &&
           negb (c_true (hflags env .& MIPS_HFLAG_DM)))
       (hflags_or ((CP0_Status env >> CP0St_KSU) .& MIPS_HFLAG_KSU)))
    (fun _ => bits_are e MIPS_HFLAG_KSU (privilege_bits e)).
Proof.
  layout.
  intros env [[Hf Hk] [_ Hd]].
  destruct (same_but_hflags_regs e env Hf) as (Hs & _ & _).
  rewrite exec_get_bind, exec_when, Hs, Hd, !c_true_bit by assumption.
  unfold privilege_bits, kernel_forced.
  destruct (Z.testbit (CP0_Status e) CP0St_EXL),
           (Z.testbit (CP0_Status e) CP0St_ERL),
           (c_true (hflags e .& MIPS_HFLAG_DM));
    cbn [negb andb orb]; try (split; assumption).
  split; [exact Hf|]. rewrite exec_hflags_or, hflags_set_hflags.
  apply or_field; [range | exact Hk].
Qed.

Lemma stmt_64 e pb :
  hoare (both (bits_are e MIPS_HFLAG_KSU pb) (bits_are e MIPS_HFLAG_64 0))
    (env <- get ;;
     when (c_true (insn_flags env .& ISA_MIPS3) &&
           (negb (hflags env .& MIPS_HFLAG_KSU =? MIPS_HFLAG_UM) ||
            c_true (CP0_Status env .& (1 << CP0St_PX)) ||
            c_true (CP0_Status env .& (1 << CP0St_UX))))
       (hflags_or MIPS_HFLAG_64))
    (fun _ => bits_are e MIPS_HFLAG_64
                (if hflag_64_cond e pb then MIPS_HFLAG_64 else 0)).
Proof.
  layout. intros env [[Hf Hk] Hzero].
  destruct (same_but_hflags_regs e env Hf) as (Hs & Hi & _).
  rewrite exec_get_bind, Hs, Hi, Hk.
  unfold hflag_64_cond, has_insn, flag_set. apply or_own; [range | exact Hzero].
Qed.

Lemma stmt_awrap e pb :
  hoare (both (bits_are e MIPS_HFLAG_KSU pb) (bits_are e MIPS_HFLAG_AWRAP 0))
    (env <- get ;;
     if negb (c_true (insn_flags env .& ISA_MIPS3)) then
       hflags_or MIPS_HFLAG_AWRAP
     else if (hflags env .& MIPS_HFLAG_KSU =? MIPS_HFLAG_UM) &&
             negb (c_true (CP0_Status env .& (1 << CP0St_UX))) then
       hflags_or MIPS_HFLAG_AWRAP
     else if c_true (insn_flags env .& ISA_MIPS64R6) then
       when (((hflags env .& MIPS_HFLAG_KSU =? MIPS_HFLAG_SM) &&
              negb (c_true (CP0_Status env .& (1 << CP0St_SX)))) ||
             ((hflags env .& MIPS_HFLAG_KSU =? MIPS_HFLAG_KM) &&
              negb (c_true (CP0_Status env .& (1 << CP0St_KX)))))
         (hflags_or MIPS_HFLAG_AWRAP)
     else ret tt)
    (fun _ => bits_are e MIPS_HFLAG_AWRAP
                (if hflag_awrap_cond e pb then MIPS_HFLAG_AWRAP else 0)).
Proof.
  layout. intros env [[Hf Hk] Hzero].
  destruct (same_but_hflags_regs e env Hf) as (Hs & Hi & _).
  rewrite exec_get_bind, Hs, Hi, Hk.
  unfold hflag_awrap_cond, has_insn, flag_set.
  assert (Hset : bits_are e MIPS_HFLAG_AWRAP MIPS_HFLAG_AWRAP
                   (exec (hflags_or MIPS_HFLAG_AWRAP) env)).
  { apply (or_own e MIPS_HFLAG_AWRAP true env); [range | exact Hzero]. }
  destruct (negb (c_true (insn_flags e .& ISA_MIPS3))); [exact Hset|].
  destruct ((pb =? MIPS_HFLAG_UM) &&
            negb (c_true (CP0_Status e .& (1 << CP0St_UX)))); [exact Hset|].
  destruct (c_true (insn_flags e .& ISA_MIPS64R6)); [|exact Hzero].
  apply or_own; [range | exact Hzero].
Qed.

Lemma stmt_cp0 e pb :
  hoare (both (bits_are e MIPS_HFLAG_KSU pb) (bits_are e MIPS_HFLAG_CP0 0))
    (env <- get ;;
     when ((c_true (CP0_Status env .& (1 << CP0St_CU0)) &&
            negb (c_true (insn_flags env .& ISA_MIPS32R6))) ||
           negb (c_true (hflags env .& MIPS_HFLAG_KSU)))
       (hflags_or MIPS_HFLAG_CP0))
    (fun _ => bits_are e MIPS_HFLAG_CP0
                (if hflag_cp0_cond e pb then MIPS_HFLAG_CP0 else 0)).
Proof.
  layout. intros env [[Hf Hk] Hzero].
  destruct (same_but_hflags_regs e env Hf) as (Hs & Hi & _).
  rewrite exec_get_bind, Hs, Hi, Hk.
  unfold hflag_cp0_cond, has_insn, flag_set. apply or_own; [range | exact Hzero].
Qed.

Lemma stmt_sbri e pb :
  hoare (both (bits_are e MIPS_HFLAG_KSU pb) (bits_are e MIPS_HFLAG_SBRI 0))
    (env <- get ;;
     when (negb (hflags env .& MIPS_HFLAG_KSU =? MIPS_HFLAG_KM) &&
           c_true (CP0_Config5 env .& (1 << CP0C5_SBRI)))
       (hflags_or MIPS_HFLAG_SBRI))
    (fun _ => bits_are e MIPS_HFLAG_SBRI
                (if hflag_sbri_cond e pb then MIPS_HFLAG_SBRI else 0)).
Proof.
  layout. intros env [[Hf Hk] Hzero].
  destruct (same_but_hflags_regs e env Hf) as (_ & _ & Hc & _).
  rewrite exec_get_bind, Hc, Hk.
  unfold hflag_sbri_cond, has_insn, flag_set. apply or_own; [range | exact Hzero].
Qed.

Lemma stmt_cop1x e h64 :
  hoare (both (bits_are e MIPS_HFLAG_64 h64) (bits_are e MIPS_HFLAG_COP1X 0))
    (env <- get ;;
     if c_true (insn_flags env .& ISA_MIPS32R2) then
       when (c_true (fcr0 (active_fpu env) .& (1 << FCR0_F64)))
         (hflags_or MIPS_HFLAG_COP1X)
     else if c_true (insn_flags env .& ISA_MIPS32) then
       when (c_true (hflags env .& MIPS_HFLAG_64))
         (hflags_or MIPS_HFLAG_COP1X)
     else if c_true (insn_flags env .& ISA_MIPS4) then
       when (c_true (to_uint32 (CP0_Status env) .& (1 << CP0St_CU3)))
         (hflags_or MIPS_HFLAG_COP1X)
     else ret tt)
    (fun _ => bits_are e MIPS_HFLAG_COP1X
                (if hflag_cop1x_cond e h64 then MIPS_HFLAG_COP1X else 0)).
Proof.
  layout. intros env [[Hf Hwide] Hzero].
  destruct (same_but_hflags_regs e env Hf) as (Hs & Hi & _ & Hfpu).
  rewrite exec_get_bind, Hs, Hi, Hfpu, Hwide.
  unfold hflag_cop1x_cond, has_insn, flag_set.
  destruct (c_true (insn_flags e .& ISA_MIPS32R2));
    [apply or_own; [range | exact Hzero]|].
  destruct (c_true (insn_flags e .& ISA_MIPS32));
    [apply or_own; [range | exact Hzero]|].
  destruct (c_true (insn_flags e .& ISA_MIPS4));
    [apply or_own; [range | exact Hzero] | exact Hzero].
Qed.

(** The bits followed through a pass, statement by statement. *)
Local Abbreviation stage e k v64 vaw vcp vsb vcx :=
  (both (bits_are e MIPS_HFLAG_KSU k)
  (both (bits_are e MIPS_HFLAG_64 v64)
  (both (bits_are e MIPS_HFLAG_AWRAP vaw)
  (both (bits_are e MIPS_HFLAG_CP0 vcp)
  (both (bits_are e MIPS_HFLAG_SBRI vsb)
        (bits_are e MIPS_HFLAG_COP1X vcx)))))).

Local Abbreviation pick b m := (if b then m else 0).

Ltac disj_layout :=
  repeat first
    [ assumption
    | apply disj_lor
    | apply disj_land
    | apply disj_sym; assumption ].

(* a conjunct of the precondition *)
Ltac proj :=
  let env := fresh "env" in
  let HH := fresh "HH" in
  intros env HH; unfold both in HH |- *;
  repeat match goal with H : _ /\ _ |- _ => destruct H end;
  repeat match goal with |- _ /\ _ => split end; assumption.

(* bits that the statement does not write *)
Ltac kept :=
  apply hoare_kept;
  [ proj
  | keep_with ltac:(apply keeps_or_bits; [range | disj_layout]) ].

Ltac split_both :=
  repeat lazymatch goal with
    | |- hoare _ _ (fun _ => both _ _) => apply hoare_both
    end.

(* bits that the statement writes, by its own lemma *)
Ltac by_stmt lem :=
  eapply hoare_weaken; [ apply lem | proj ].

(* a statement that writes none of the bits followed *)
Ltac untouched :=
  lazymatch goal with
  | |- hoare ?P _ _ => eapply hoare_stmt with (R := P); [split_both; kept|]
  end.

Lemma compute_hflags_mode_bits e :
  hoare (eq e) compute_hflags
    (fun _ =>
       stage e (privilege_bits e)
         (pick (TARGET_MIPS64 && hflag_64_cond e (privilege_bits e))
               MIPS_HFLAG_64)
         (pick (TARGET_MIPS64 && hflag_awrap_cond e (privilege_bits e))
               MIPS_HFLAG_AWRAP)
         (pick (hflag_cp0_cond e (privilege_bits e)) MIPS_HFLAG_CP0)
         (pick (hflag_sbri_cond e (privilege_bits e)) MIPS_HFLAG_SBRI)
         (pick (hflag_cop1x_cond e
                  (pick (TARGET_MIPS64 && hflag_64_cond e (privilege_bits e))
                        MIPS_HFLAG_64))
               MIPS_HFLAG_COP1X)).
Proof.
  pose proof cleared_mask_covers as Hcov. cbn [each] in Hcov.
  decompose [and] Hcov. clear Hcov.
  layout.
  unfold compute_hflags.
  (* the derived bits are cleared; the debug-mode flag is not among them *)
  apply hoare_bind with
    (R := fun _ =>
       both (bits_are e MIPS_HFLAG_DM (hflags e .& MIPS_HFLAG_DM))
            (stage e 0 0 0 0 0 0)).
  { intros env <-. unfold both, bits_are.
    rewrite exec_hflags_and, hflags_set_hflags.
    repeat match goal with |- _ /\ _ => split end;
      try (apply same_but_hflags_set, same_but_hflags_refl);
      try (apply and_clears; assumption).
    apply and_keeps; [range|]. rewrite !Z.land_lor_distr_r.
    repeat match goal with
           | H : MIPS_HFLAG_DM .& _ = 0 |- _ => rewrite H; clear H
           end.
    reflexivity. }
  intros _.
  (* ERL *)
  untouched.
  (* KSU *)
  eapply hoare_stmt with (R := stage e (privilege_bits e) 0 0 0 0 0).
  { split_both; [by_stmt (stmt_ksu e) | kept ..]. }
  (* the 64-bit block: 64, then AWRAP *)
  apply hoare_bind with
    (R := fun _ =>
       stage e (privilege_bits e)
         (pick (TARGET_MIPS64 && hflag_64_cond e (privilege_bits e))
               MIPS_HFLAG_64)
         (pick (TARGET_MIPS64 && hflag_awrap_cond e (privilege_bits e))
               MIPS_HFLAG_AWRAP)
         0 0 0).
  { destruct TARGET_MIPS64; cbn [when andb].
    - eapply hoare_stmt with
        (R := stage e (privilege_bits e)
                (pick (hflag_64_cond e (privilege_bits e)) MIPS_HFLAG_64)
                0 0 0 0).
      + split_both;
          [kept | by_stmt (stmt_64 e (privilege_bits e)) | kept ..].
      + split_both;
          [kept | kept | by_stmt (stmt_awrap e (privilege_bits e)) | kept ..].
    - intros env HH. exact HH. }
  intros _.
  (* CP0 *)
  eapply hoare_stmt with
    (R := stage e (privilege_bits e)
            (pick (TARGET_MIPS64 && hflag_64_cond e (privilege_bits e))
                  MIPS_HFLAG_64)
            (pick (TARGET_MIPS64 && hflag_awrap_cond e (privilege_bits e))
                  MIPS_HFLAG_AWRAP)
            (pick (hflag_cp0_cond e (privilege_bits e)) MIPS_HFLAG_CP0)
            0 0).
  { split_both;
      [kept | kept | kept | by_stmt (stmt_cp0 e (privilege_bits e)) | kept ..]. }
  (* FPU, F64 *)
  untouched. untouched.
  (* SBRI *)
  eapply hoare_stmt with
    (R := stage e (privilege_bits e)
            (pick (TARGET_MIPS64 && hflag_64_cond e (privilege_bits e))
                  MIPS_HFLAG_64)
            (pick (TARGET_MIPS64 && hflag_awrap_cond e (privilege_bits e))
                  MIPS_HFLAG_AWRAP)
            (pick (hflag_cp0_cond e (privilege_bits e)) MIPS_HFLAG_CP0)
            (pick (hflag_sbri_cond e (privilege_bits e)) MIPS_HFLAG_SBRI)
            0).
  { split_both;
      [kept | kept | kept | kept
       | by_stmt (stmt_sbri e (privilege_bits e)) | kept]. }
  (* DSP *)
  untouched.
  (* COP1X *)
  eapply hoare_stmt with
    (R := stage e (privilege_bits e)
            (pick (TARGET_MIPS64 && hflag_64_cond e (privilege_bits e))
                  MIPS_HFLAG_64)
            (pick (TARGET_MIPS64 && hflag_awrap_cond e (privilege_bits e))
                  MIPS_HFLAG_AWRAP)
            (pick (hflag_cp0_cond e (privilege_bits e)) MIPS_HFLAG_CP0)
            (pick (hflag_sbri_cond e (privilege_bits e)) MIPS_HFLAG_SBRI)
            (pick (hflag_cop1x_cond e
                     (pick (TARGET_MIPS64 &&
                            hflag_64_cond e (privilege_bits e))
                           MIPS_HFLAG_64))
                  MIPS_HFLAG_COP1X)).
  { split_both;
      [kept | kept | kept | kept | kept
       | by_stmt (stmt_cop1x e
                    (pick (TARGET_MIPS64 &&
                           hflag_64_cond e (privilege_bits e))
                          MIPS_HFLAG_64))]. }
  (* MSA, FRE, ELPA *)
  split_both; kept.
Qed.

Lemma c_true_pick (b : bool) m :
  0 < m -> c_true (if b then m else 0) = b.
Proof.
  intros Hm. destruct b; [apply c_true_iff; lia | reflexivity].
Qed.

(** C3. The KSU bits of the recomputed flags are the KSU field of Status
    when Status.EXL, Status.ERL and the debug-mode flag are all clear, and
    zero otherwise; and each derived bit that depends on the privilege mode
    (CP0 usability, SBRI, in a 64-bit build the 64-bit and address-wrap
    bits, and COP1X through the 64-bit flag) is decided by these
    just-computed bits. *)
Theorem compute_hflags_privilege_mode (env : CPUMIPSState) :
  let env' := exec compute_hflags env in
  let ksu := hflags env' .& MIPS_HFLAG_KSU in
  (kernel_forced env = false ->
   ksu = (CP0_Status env >> CP0St_KSU) .& MIPS_HFLAG_KSU) /\
  (kernel_forced env = true -> ksu = 0) /\
  c_true (hflags env' .& MIPS_HFLAG_CP0) = hflag_cp0_cond env ksu /\
  c_true (hflags env' .& MIPS_HFLAG_SBRI) = hflag_sbri_cond env ksu /\
  c_true (hflags env' .& MIPS_HFLAG_64) =
    TARGET_MIPS64 && hflag_64_cond env ksu /\
  c_true (hflags env' .& MIPS_HFLAG_AWRAP) =
    TARGET_MIPS64 && hflag_awrap_cond env ksu /\
  c_true (hflags env' .& MIPS_HFLAG_COP1X) =
    hflag_cop1x_cond env (hflags env' .& MIPS_HFLAG_64).
Proof.
  intros env' ksu.
  pose proof (compute_hflags_mode_bits env env eq_refl) as H.
  cbv beta in H. unfold both in H. fold env' in H.
  destruct H as ([_ Hk] & [_ Hwide] & [_ Haw] & [_ Hcp] & [_ Hsb] & [_ Hcx]).
  fold ksu in Hk. clearbody ksu env'. layout.
  rewrite Hcx, Hcp, Hsb, Hwide, Haw, Hk, !c_true_pick by assumption.
  unfold privilege_bits.
  repeat split; try (intros ->; reflexivity).
Qed.

(** C10. When Status.EXL or Status.ERL is set, or the debug-mode flag is
    set, the recomputed KSU bits are zero and the CP0-usable bit is set. *)
Theorem compute_hflags_kernel_forced (env : CPUMIPSState) :
  Z.testbit (CP0_Status env) CP0St_EXL = true \/
  Z.testbit (CP0_Status env) CP0St_ERL = true \/
  hflags env .& MIPS_HFLAG_DM <> 0 ->
  let env' := exec compute_hflags env in
  hflags env' .& MIPS_HFLAG_KSU = 0 /\
  hflags env' .& MIPS_HFLAG_CP0 = MIPS_HFLAG_CP0.
Proof.
  intros Hforced env'.
  assert (Hk : kernel_forced env = true).
  { unfold kernel_forced. destruct Hforced as [-> | [-> | Hdm]].
    - reflexivity.
    - rewrite orb_true_r. reflexivity.
    - apply c_true_iff in Hdm. rewrite Hdm. apply orb_true_r. }
  pose proof (compute_hflags_mode_bits env env eq_refl) as H.
  cbv beta in H. unfold both in H. fold env' in H.
  destruct H as ([_ Hksu] & _ & _ & [_ Hcp] & _).
  unfold privilege_bits in Hksu, Hcp. rewrite Hk in Hksu, Hcp.
  split; [exact Hksu|]. rewrite Hcp. unfold hflag_cp0_cond.
  change (c_true 0) with false. rewrite orb_true_r. reflexivity.
Qed.


(** ** Recomputation of the mode flags: the other derived bits *)

Lemma same_but_hflags_regs2 e env :
  same_but_hflags e env ->
  CP0_Config3 env = CP0_Config3 e /\ CP0_PageGrain env = CP0_PageGrain e.
Proof.
  unfold same_but_hflags. intros H. decompose [and] H.
  split; symmetry; assumption.
Qed.

(** A statement [if (c) hflags |= m] whose condition reads no bit of
    [hflags]. *)
Lemma stmt_when e m (c : CPUMIPSState -> bool) :
  0 <= m < 2 ^ 32 ->
  (forall env, same_but_hflags e env -> c env = c e) ->
  hoare (bits_are e m 0)
    (env <- get ;; when (c env) (hflags_or m))
    (fun _ => bits_are e m (if c e then m else 0)).
Proof.
  intros Hm Hc env [Hf Hz]. rewrite exec_get_bind, (Hc env Hf).
  apply or_own; [exact Hm | split; assumption].
Qed.

(** The same for [if (c1) { if (c2) hflags |= m; }]. *)
Lemma stmt_when2 e m (c1 c2 : CPUMIPSState -> bool) :
  0 <= m < 2 ^ 32 ->
  (forall env, same_but_hflags e env -> c1 env = c1 e /\ c2 env = c2 e) ->
  hoare (bits_are e m 0)
    (env <- get ;; when (c1 env) (when (c2 env) (hflags_or m)))
    (fun _ => bits_are e m (if c1 e && c2 e then m else 0)).
Proof.
  intros Hm Hc env [Hf Hz]. destruct (Hc env Hf) as [H1 H2].
  rewrite exec_get_bind, H1, H2, exec_when.
  destruct (c1 e); cbn [andb]; [|split; assumption].
  apply or_own; [exact Hm | split; assumption].
Qed.

Lemma or_sets_left h a b :
  0 <= a < 2 ^ 32 -> to_uint32 (h .| (a .| b)) .& a = a.
Proof.
  intros Ha. rewrite u32_land by assumption. bitwise. bools.
Qed.

Lemma or_sets_right h a b :
  0 <= b < 2 ^ 32 -> to_uint32 (h .| (a .| b)) .& b = b.
Proof.
  intros Hb. rewrite u32_land by assumption. bitwise. bools.
Qed.

Ltac same_regs :=
  let env := fresh "env" in
  let Hf := fresh "Hf" in
  intros env Hf; unfold same_but_hflags in Hf; decompose [and] Hf;
  repeat match goal with
         | H : ?f ?a = ?f env |- _ => rewrite <- H; clear H
         end;
  repeat split.

Lemma stmt_dsp e :
  hoare (bits_are e MIPS_HFLAG_DSP 0)
    (env <- get ;;
     if c_true (insn_flags env .& ASE_DSPR2) then
       when (c_true (CP0_Status env .& (1 << CP0St_MX)))
         (hflags_or (MIPS_HFLAG_DSP .| MIPS_HFLAG_DSPR2))
     else if c_true (insn_flags env .& ASE_DSP) then
       when (c_true (CP0_Status env .& (1 << CP0St_MX)))
         (hflags_or MIPS_HFLAG_DSP)
     else ret tt)
    (fun _ => bits_are e MIPS_HFLAG_DSP
                (if flag_set (CP0_Status e) CP0St_MX &&
                    (has_insn e ASE_DSPR2 || has_insn e ASE_DSP)
                 then MIPS_HFLAG_DSP else 0)).
Proof.
  layout. intros env [Hf Hzero].
  destruct (same_but_hflags_regs e env Hf) as (Hs & Hi & _).
  rewrite exec_get_bind, Hs, Hi. unfold has_insn, flag_set.
  destruct (c_true (insn_flags e .& ASE_DSPR2)).
  - rewrite orb_true_l, andb_true_r, exec_when.
    destruct (c_true (CP0_Status e .& (1 << CP0St_MX)));
      [|split; assumption].
    split; [exact Hf|]. rewrite exec_hflags_or, hflags_set_hflags.
    apply or_sets_left. range.
  - rewrite orb_false_l.
    destruct (c_true (insn_flags e .& ASE_DSP)).
    + rewrite andb_true_r. apply or_own; [range | split; assumption].
    + rewrite andb_false_r. split; assumption.
Qed.

Lemma stmt_dspr2 e :
  hoare (bits_are e MIPS_HFLAG_DSPR2 0)
    (env <- get ;;
     if c_true (insn_flags env .& ASE_DSPR2) then
       when (c_true (CP0_Status env .& (1 << CP0St_MX)))
         (hflags_or (MIPS_HFLAG_DSP .| MIPS_HFLAG_DSPR2))
     else if c_true (insn_flags env .& ASE_DSP) then
       when (c_true (CP0_Status env .& (1 << CP0St_MX)))
         (hflags_or MIPS_HFLAG_DSP)
     else ret tt)
    (fun _ => bits_are e MIPS_HFLAG_DSPR2
                (if flag_set (CP0_Status e) CP0St_MX && has_insn e ASE_DSPR2
                 then MIPS_HFLAG_DSPR2 else 0)).
Proof.
  layout. intros env [Hf Hzero].
  destruct (same_but_hflags_regs e env Hf) as (Hs & Hi & _).
  rewrite exec_get_bind, Hs, Hi. unfold has_insn, flag_set.
  destruct (c_true (insn_flags e .& ASE_DSPR2)).
  - rewrite andb_true_r, exec_when.
    destruct (c_true (CP0_Status e .& (1 << CP0St_MX)));
      [|split; assumption].
    split; [exact Hf|]. rewrite exec_hflags_or, hflags_set_hflags.
    apply or_sets_right. range.
  - rewrite andb_false_r.
    destruct (c_true (insn_flags e .& ASE_DSP)); [|split; assumption].
    rewrite exec_when.
    destruct (c_true (CP0_Status e .& (1 << CP0St_MX)));
      [|split; assumption].
    split; [exact Hf|]. rewrite exec_hflags_or, hflags_set_hflags.
    rewrite or_keeps; [exact Hzero | range | assumption].
Qed.

(** The derived bits that do not depend on the privilege mode, followed
    through a pass. *)
Local Abbreviation stage2 e verl vfpu vf64 vdsp vdspr2 vmsa vfre velpa :=
  (both (bits_are e MIPS_HFLAG_ERL verl)
  (both (bits_are e MIPS_HFLAG_FPU vfpu)
  (both (bits_are e MIPS_HFLAG_F64 vf64)
  (both (bits_are e MIPS_HFLAG_DSP vdsp)
  (both (bits_are e MIPS_HFLAG_DSPR2 vdspr2)
  (both (bits_are e MIPS_HFLAG_MSA vmsa)
  (both (bits_are e MIPS_HFLAG_FRE vfre)
        (bits_are e MIPS_HFLAG_ELPA velpa)))))))).

Local Abbreviation v_erl e :=
  (pick (flag_set (CP0_Status e) CP0St_ERL) MIPS_HFLAG_ERL).
Local Abbreviation v_fpu e :=
  (pick (flag_set (CP0_Status e) CP0St_CU1) MIPS_HFLAG_FPU).
Local Abbreviation v_f64 e :=
  (pick (flag_set (CP0_Status e) CP0St_FR) MIPS_HFLAG_F64).
Local Abbreviation v_dsp e :=
  (pick (flag_set (CP0_Status e) CP0St_MX &&
         (has_insn e ASE_DSPR2 || has_insn e ASE_DSP)) MIPS_HFLAG_DSP).
Local Abbreviation v_dspr2 e :=
  (pick (flag_set (CP0_Status e) CP0St_MX && has_insn e ASE_DSPR2)
        MIPS_HFLAG_DSPR2).
Local Abbreviation v_msa e :=
  (pick (has_insn e ASE_MSA && flag_set (CP0_Config5 e) CP0C5_MSAEn)
        MIPS_HFLAG_MSA).
Local Abbreviation v_fre e :=
  (pick (flag_set (fcr0 (active_fpu e)) FCR0_FREP &&
         flag_set (CP0_Config5 e) CP0C5_FRE) MIPS_HFLAG_FRE).
Local Abbreviation v_elpa e :=
  (pick (flag_set (CP0_Config3 e) CP0C3_LPA &&
         flag_set (CP0_PageGrain e) CP0PG_ELPA) MIPS_HFLAG_ELPA).

(* a statement, or a block, that writes none of the bits followed *)
Ltac untouched_block :=
  lazymatch goal with
  | |- hoare ?P (bind _ _) _ =>
      apply hoare_bind with (R := fun _ => P); [split_both; kept | intros _]
  end.

Lemma compute_hflags_feature_bits e :
  hoare (eq e) compute_hflags
    (fun _ => stage2 e (v_erl e) (v_fpu e) (v_f64 e) (v_dsp e) (v_dspr2 e)
                       (v_msa e) (v_fre e) (v_elpa e)).
Proof.
  pose proof cleared_mask_covers as Hcov. cbn [each] in Hcov.
  decompose [and] Hcov. clear Hcov.
  layout.
  unfold compute_hflags.
  apply hoare_bind with (R := fun _ => stage2 e 0 0 0 0 0 0 0 0).
  { intros env <-. unfold both, bits_are.
    rewrite exec_hflags_and, hflags_set_hflags.
    repeat match goal with |- _ /\ _ => split end;
      try (apply same_but_hflags_set, same_but_hflags_refl);
      apply and_clears; assumption. }
  intros _.
  (* ERL *)
  eapply hoare_stmt with (R := stage2 e (v_erl e) 0 0 0 0 0 0 0).
  { split_both;
      [by_stmt (stmt_when e MIPS_HFLAG_ERL
                  (fun env => c_true (CP0_Status env .& (1 << CP0St_ERL))));
       [range | same_regs]
      | kept ..]. }
  (* KSU, the 64-bit block, CP0 *)
  untouched. untouched_block. untouched.
  (* FPU *)
  eapply hoare_stmt with (R := stage2 e (v_erl e) (v_fpu e) 0 0 0 0 0 0).
  { split_both;
      [kept
      | by_stmt (stmt_when e MIPS_HFLAG_FPU
                  (fun env => c_true (CP0_Status env .& (1 << CP0St_CU1))));
        [range | same_regs]
      | kept ..]. }
  (* F64 *)
  eapply hoare_stmt with
    (R := stage2 e (v_erl e) (v_fpu e) (v_f64 e) 0 0 0 0 0).
  { split_both;
      [kept | kept
      | by_stmt (stmt_when e MIPS_HFLAG_F64
                  (fun env => c_true (CP0_Status env .& (1 << CP0St_FR))));
        [range | same_regs]
      | kept ..]. }
  (* SBRI *)
  untouched.
  (* DSP *)
  eapply hoare_stmt with
    (R := stage2 e (v_erl e) (v_fpu e) (v_f64 e) (v_dsp e) (v_dspr2 e)
                   0 0 0).
  { split_both;
      [kept | kept | kept | by_stmt (stmt_dsp e) | by_stmt (stmt_dspr2 e)
      | kept ..]. }
  (* COP1X *)
  untouched.
  (* MSA *)
  eapply hoare_stmt with
    (R := stage2 e (v_erl e) (v_fpu e) (v_f64 e) (v_dsp e) (v_dspr2 e)
                   (v_msa e) 0 0).
  { split_both;
      [kept | kept | kept | kept | kept
      | by_stmt (stmt_when2 e MIPS_HFLAG_MSA
                  (fun env => c_true (insn_flags env .& ASE_MSA))
                  (fun env => c_true (CP0_Config5 env .& (1 << CP0C5_MSAEn))));
        [range | same_regs]
      | kept ..]. }
  (* FRE *)
  eapply hoare_stmt with
    (R := stage2 e (v_erl e) (v_fpu e) (v_f64 e) (v_dsp e) (v_dspr2 e)
                   (v_msa e) (v_fre e) 0).
  { split_both;
      [kept | kept | kept | kept | kept | kept
      | by_stmt (stmt_when2 e MIPS_HFLAG_FRE
                  (fun env =>
                     c_true (fcr0 (active_fpu env) .& (1 << FCR0_FREP)))
                  (fun env => c_true (CP0_Config5 env .& (1 << CP0C5_FRE))));
        [range | same_regs]
      | kept]. }
  (* ELPA *)
  split_both;
    [kept | kept | kept | kept | kept | kept | kept
    | by_stmt (stmt_when2 e MIPS_HFLAG_ELPA
                (fun env => c_true (CP0_Config3 env .& (1 << CP0C3_LPA)))
                (fun env =>
                   c_true (CP0_PageGrain env .& (1 << CP0PG_ELPA))));
      [range | same_regs] ].
Qed.

Lemma feature_bits_of (env : CPUMIPSState) :
  let h' := hflags (exec compute_hflags env) in
  h' .& MIPS_HFLAG_ERL = v_erl env /\ h' .& MIPS_HFLAG_FPU = v_fpu env /\
  h' .& MIPS_HFLAG_F64 = v_f64 env /\ h' .& MIPS_HFLAG_DSP = v_dsp env /\
  h' .& MIPS_HFLAG_DSPR2 = v_dspr2 env /\ h' .& MIPS_HFLAG_MSA = v_msa env /\
  h' .& MIPS_HFLAG_FRE = v_fre env /\ h' .& MIPS_HFLAG_ELPA = v_elpa env.
Proof.
  intros h'.
  pose proof (compute_hflags_feature_bits env env eq_refl) as H.
  cbv beta in H. unfold both in H. fold h' in H.
  destruct H as ([_ H1] & [_ H2] & [_ H3] & [_ H4] & [_ H5] & [_ H6] &
                 [_ H7] & [_ H8]).
  repeat split; assumption.
Qed.

(** X1. After a recomputation the ERL, FPU and F64 flags mirror the ERL,
    CU1 and FR bits of Status. *)
Theorem compute_hflags_status_flags
    (Hcu1 : 0 <= CP0St_CU1) (Hfr : 0 <= CP0St_FR) (env : CPUMIPSState) :
  let h' := hflags (exec compute_hflags env) in
  c_true (h' .& MIPS_HFLAG_ERL) = Z.testbit (CP0_Status env) CP0St_ERL /\
  c_true (h' .& MIPS_HFLAG_FPU) = Z.testbit (CP0_Status env) CP0St_CU1 /\
  c_true (h' .& MIPS_HFLAG_F64) = Z.testbit (CP0_Status env) CP0St_FR.
Proof.
  intros h'.
  destruct (feature_bits_of env) as (H1 & H2 & H3 & _). fold h' in H1, H2, H3.
  clearbody h'. layout.
  rewrite H1, H2, H3, !c_true_pick by assumption.
  unfold flag_set. rewrite !c_true_bit by assumption. repeat split.
Qed.

(** X2. The DSP flag is set iff Status.MX is set and the CPU has the DSP
    or the DSP R2 extension; the DSPR2 flag iff Status.MX is set and the
    CPU has DSP R2.  So DSPR2 is never set without DSP. *)
Theorem compute_hflags_dsp_flags
    (Hmx : 0 <= CP0St_MX) (env : CPUMIPSState) :
  let h' := hflags (exec compute_hflags env) in
  c_true (h' .& MIPS_HFLAG_DSP) =
    Z.testbit (CP0_Status env) CP0St_MX &&
    (has_insn env ASE_DSPR2 || has_insn env ASE_DSP) /\
  c_true (h' .& MIPS_HFLAG_DSPR2) =
    Z.testbit (CP0_Status env) CP0St_MX && has_insn env ASE_DSPR2 /\
  (h' .& MIPS_HFLAG_DSPR2 <> 0 -> h' .& MIPS_HFLAG_DSP <> 0).
Proof.
  intros h'.
  destruct (feature_bits_of env) as (_ & _ & _ & H4 & H5 & _).
  fold h' in H4, H5. clearbody h'. layout.
  rewrite <- !c_true_iff.
  rewrite H4, H5, !c_true_pick by assumption.
  unfold flag_set. rewrite !c_true_bit by assumption.
  repeat split.
  destruct (Z.testbit (CP0_Status env) CP0St_MX), (has_insn env ASE_DSPR2);
    cbn; intros; try discriminate; reflexivity.
Qed.

(** X3. The MSA, FRE and ELPA flags each need the capability and the
    enable bit: MSA the MSA extension and Config5.MSAEn, FRE the FREP bit
    of FCR0 and Config5.FRE, ELPA Config3.LPA and PageGrain.ELPA. *)
Theorem compute_hflags_enable_flags
    (Hmsaen : 0 <= CP0C5_MSAEn) (Hfrep : 0 <= FCR0_FREP)
    (Hfre : 0 <= CP0C5_FRE) (Hlpa : 0 <= CP0C3_LPA)
    (Helpa : 0 <= CP0PG_ELPA) (env : CPUMIPSState) :
  let h' := hflags (exec compute_hflags env) in
  c_true (h' .& MIPS_HFLAG_MSA) =
    has_insn env ASE_MSA && Z.testbit (CP0_Config5 env) CP0C5_MSAEn /\
  c_true (h' .& MIPS_HFLAG_FRE) =
    Z.testbit (fcr0 (active_fpu env)) FCR0_FREP &&
    Z.testbit (CP0_Config5 env) CP0C5_FRE /\
  c_true (h' .& MIPS_HFLAG_ELPA) =
    Z.testbit (CP0_Config3 env) CP0C3_LPA &&
    Z.testbit (CP0_PageGrain env) CP0PG_ELPA.
Proof.
  intros h'.
  destruct (feature_bits_of env) as (_ & _ & _ & _ & _ & H6 & H7 & H8).
  fold h' in H6, H7, H8. clearbody h'. layout.
  rewrite H6, H7, H8, !c_true_pick by assumption.
  unfold flag_set. rewrite !c_true_bit by assumption. repeat split.
Qed.

Lemma outside_land h m c :
  0 <= m < 2 ^ 32 -> m .& c = 0 -> (h .& to_uint32 (~~ c)) .& m = h .& m.
Proof.
  intros Hm Hc. bitwise. generalize (disjoint_bits _ _ i Hc).
  rewrite (high_bits m i) by assumption. bools.
Qed.

Lemma compute_hflags_keeps_dm (env : CPUMIPSState) :
  hflags (exec compute_hflags env) .& MIPS_HFLAG_DM =
  hflags env .& MIPS_HFLAG_DM.
Proof.
  destruct (compute_hflags_outside env env eq_refl) as [_ Hb].
  layout.
  assert (Hdm : MIPS_HFLAG_DM .& cleared_mask = 0).
  { rewrite !Z.land_lor_distr_r.
    repeat match goal with
           | H : MIPS_HFLAG_DM .& _ = 0 |- _ => rewrite H; clear H
           end.
    reflexivity. }
  rewrite <- (outside_land (hflags (exec compute_hflags env))
                MIPS_HFLAG_DM cleared_mask) by (range || exact Hdm).
  rewrite Hb. apply outside_land; [range | exact Hdm].
Qed.

(** X4. A recomputation changes the answer of none of the predicates: the
    interrupt-enabled and interrupt-pending predicates and the VPE and VP
    activity predicates answer after [compute_hflags] what they answered
    before it. *)
Theorem compute_hflags_keeps_predicates (env : CPUMIPSState) :
  let env' := exec compute_hflags env in
  result cpu_mips_hw_interrupts_enabled env' =
    result cpu_mips_hw_interrupts_enabled env /\
  result cpu_mips_hw_interrupts_pending env' =
    result cpu_mips_hw_interrupts_pending env /\
  result mips_vpe_active env' = result mips_vpe_active env /\
  result mips_vp_active env' = result mips_vp_active env.
Proof.
  intros env'.
  pose proof (compute_hflags_keeps_dm env) as Hdm. fold env' in Hdm.
  pose proof (compute_hflags_keeps_frame env env (same_but_hflags_refl env))
    as Hf.
  change (same_but_hflags env env') in Hf. clearbody env'.
  unfold same_but_hflags in Hf. decompose [and] Hf. clear Hf.
  unfold result, cpu_mips_hw_interrupts_enabled,
    cpu_mips_hw_interrupts_pending, mips_vpe_active, mips_vp_active,
    bind, get.
  cbn [fst ret].
  repeat match goal with
         | H : ?f env = ?f env' |- _ => rewrite <- H; clear H
         end.
  rewrite Hdm. repeat split.
  - destruct (c_true (CP0_Config3 env .& (1 << CP0C3_VEIC))); reflexivity.
  - destruct (c_true ((CP0_VPControl env >> CP0VPCtl_DIS) .& 1));
      reflexivity.
Qed.

(** X5. When the interrupts are enabled, a recomputation leaves the ERL
    flag clear and derives the privilege mode from Status: the KSU bits of
    [hflags] are the KSU field of Status. *)
Theorem enabled_interrupts_mode_flags (env : CPUMIPSState) :
  result cpu_mips_hw_interrupts_enabled env = true ->
  let h' := hflags (exec compute_hflags env) in
  h' .& MIPS_HFLAG_KSU = (CP0_Status env >> CP0St_KSU) .& MIPS_HFLAG_KSU /\
  h' .& MIPS_HFLAG_ERL = 0.
Proof.
  intros Hen h'.
  unfold result, cpu_mips_hw_interrupts_enabled, bind, get in Hen.
  cbn [fst ret] in Hen.
  rewrite !andb_true_iff, !negb_true_iff in Hen.
  destruct Hen as ((((_ & Hx) & He) & Hd) & _).
  rewrite c_true_bit in Hx, He by assumption.
  pose proof (compute_hflags_mode_bits env env eq_refl) as H.
  cbv beta in H. unfold both in H. destruct H as ([_ Hk] & _).
  destruct (feature_bits_of env) as (H1 & _).
  subst h'. rewrite Hk, H1. unfold privilege_bits, kernel_forced, flag_set.
  rewrite c_true_bit, Hx, He, Hd by assumption. split; reflexivity.
Qed.

(** X6. In a 32-bit build the 64-bit and address-wrap flags are never
    set, so a CPU that is MIPS32 but not Release 2 never gets COP1X. *)
Theorem compute_hflags_32bit_build (env : CPUMIPSState) :
  TARGET_MIPS64 = false ->
  let h' := hflags (exec compute_hflags env) in
  h' .& MIPS_HFLAG_64 = 0 /\ h' .& MIPS_HFLAG_AWRAP = 0 /\
  (has_insn env ISA_MIPS32R2 = false -> has_insn env ISA_MIPS32 = true ->
   h' .& MIPS_HFLAG_COP1X = 0).
Proof.
  intros T h'.
  pose proof (compute_hflags_mode_bits env env eq_refl) as H.
  cbv beta in H. unfold both in H.
  destruct H as (_ & [_ Hw] & [_ Ha] & _ & _ & [_ Hc]).
  subst h'. rewrite T in Hw, Ha, Hc. cbn [andb] in Hw, Ha, Hc.
  repeat split; try assumption.
  intros H2 H1. rewrite Hc. unfold hflag_cop1x_cond. rewrite H2, H1.
  reflexivity.
Qed.

(** X10. The pair of calls made after a write to PageGrain or Config3,
    [compute_hflags] then [restore_pamask]: the physical-address mask ends
    as the low [PABITS] bits when Config3.LPA and PageGrain.ELPA are both
    set, and as the base mask otherwise, whatever [hflags] was before. *)
Theorem compute_hflags_then_restore_pamask
    (Hlpa : 0 <= CP0C3_LPA) (Helpa : 0 <= CP0PG_ELPA)
    (PAMASK_BASE : Z) (env : CPUMIPSState) :
  0 <= PABITS env < 64 ->
  let env' := exec (compute_hflags ;; restore_pamask PAMASK_BASE) env in
  PAMask env' =
    (if Z.testbit (CP0_Config3 env) CP0C3_LPA &&
        Z.testbit (CP0_PageGrain env) CP0PG_ELPA
     then 2 ^ PABITS env - 1 else to_uint64 PAMASK_BASE) /\
  hflags env' = hflags (exec compute_hflags env).
Proof.
  intros Hpa env'. subst env'. rewrite exec_bind.
  destruct (feature_bits_of env) as (_ & _ & _ & _ & _ & _ & _ & H8).
  pose proof (compute_hflags_keeps_frame env env (same_but_hflags_refl env))
    as Hf.
  change (same_but_hflags env (exec compute_hflags env)) in Hf.
  assert (Hp : PABITS (exec compute_hflags env) = PABITS env).
  { unfold same_but_hflags in Hf. decompose [and] Hf. symmetry. assumption. }
  generalize dependent (exec compute_hflags env). intros env1 H8 Hf Hp.
  layout.
  rewrite restore_pamask_value, H8, c_true_pick, Hp by assumption.
  unfold flag_set. rewrite !c_true_bit by assumption.
  split; [|apply restore_pamask_hflags].
  destruct (Z.testbit (CP0_Config3 env) CP0C3_LPA &&
            Z.testbit (CP0_PageGrain env) CP0PG_ELPA); [|reflexivity].
  apply pamask_ones. exact Hpa.
Qed.

(** X12. In a 64-bit build, on a CPU with the MIPS III instructions, a
    recomputation at exception level, at error level or in debug mode sets
    the 64-bit flag, whatever Status.KSU says; and before Release 6 it
    leaves address wrapping off. *)
Theorem compute_hflags_forced_kernel_64bit (env : CPUMIPSState) :
  TARGET_MIPS64 = true -> MIPS_HFLAG_UM <> 0 ->
  has_insn env ISA_MIPS3 = true -> kernel_forced env = true ->
  let h' := hflags (exec compute_hflags env) in
  h' .& MIPS_HFLAG_64 = MIPS_HFLAG_64 /\
  (has_insn env ISA_MIPS64R6 = false -> h' .& MIPS_HFLAG_AWRAP = 0).
Proof.
  intros T Hum H3 Hk h'.
  pose proof (compute_hflags_mode_bits env env eq_refl) as H.
  cbv beta in H. unfold both in H.
  destruct H as (_ & [_ Hw] & [_ Ha] & _).
  subst h'. rewrite Hw, Ha, T. cbn [andb].
  unfold privilege_bits, hflag_64_cond, hflag_awrap_cond.
  rewrite Hk, H3. cbn [andb negb].
  assert (E : (0 =? MIPS_HFLAG_UM) = false) by (apply Z.eqb_neq; lia).
  rewrite E. cbn [andb negb orb]. split; [reflexivity|].
  intros ->. reflexivity.
Qed.

End Layout.

(** ** Recomputation of the mode flags: what it leaves alone *)

Lemma compute_hflags_u32 :
  hoare (fun _ => True) compute_hflags
    (fun _ env => 0 <= hflags env < 2 ^ 32).
Proof.
  unfold compute_hflags.
  apply hoare_bind with (R := fun _ env => 0 <= hflags env < 2 ^ 32).
  - intros env _. rewrite exec_hflags_and, hflags_set_hflags.
    apply u32_range.
  - intros _.
    match goal with |- hoare ?I ?m _ => change (keeps m I) end.
    keep_with ltac:(intros ? ?; rewrite exec_hflags_or, hflags_set_hflags;
                    apply u32_range).
Qed.

(** X7. A recomputation touches only the bits of the cleared mask: every
    other bit of the 32-bit [hflags] word is after the call what it was
    before, and the word stays within 32 bits. *)
Theorem compute_hflags_outside_bits (env : CPUMIPSState) :
  let h' := hflags (exec compute_hflags env) in
  0 <= h' < 2 ^ 32 /\
  forall i, 0 <= i < 32 -> Z.testbit cleared_mask i = false ->
    Z.testbit h' i = Z.testbit (hflags env) i.
Proof.
  intros h'. split; [apply (compute_hflags_u32 env I)|].
  intros i Hi Hc.
  destruct (compute_hflags_outside env env eq_refl) as [_ Hb].
  fold h' in Hb. clearbody h'.
  apply (f_equal (fun z => Z.testbit z i)) in Hb.
  rewrite !Z.land_spec, testbit_u32, Z.lnot_spec, Hc in Hb by lia.
  destruct (Z.ltb_spec i 32); [|lia].
  cbn in Hb. rewrite !andb_true_r in Hb. exact Hb.
Qed.

(** X8. The recomputation is full, never incremental: two states that
    differ only in bits of [hflags] under the cleared mask are recomputed
    to the same state. *)
Theorem compute_hflags_full_recompute (env1 env2 : CPUMIPSState) :
  same_but_hflags env1 env2 ->
  (forall i, 0 <= i < 32 -> Z.testbit cleared_mask i = false ->
     Z.testbit (hflags env1) i = Z.testbit (hflags env2) i) ->
  exec compute_hflags env1 = exec compute_hflags env2.
Proof.
  intros Hf Hbits. apply compute_hflags_after_clear.
  rewrite !exec_hflags_and, (set_hflags_same_but env1 env2) by exact Hf.
  f_equal. apply Z.bits_inj'. intros i Hi.
  rewrite !testbit_u32, !Z.land_spec, !testbit_u32, !Z.lnot_spec
    by assumption.
  destruct (Z.ltb_spec i 32); [|reflexivity].
  destruct (Z.testbit cleared_mask i) eqn:Hc.
  - destruct (Z.testbit (hflags env1) i), (Z.testbit (hflags env2) i);
      reflexivity.
  - rewrite (Hbits i) by (assumption || lia). reflexivity.
Qed.

(** ** The pending predicate on the interrupt fields *)

Lemma pending_by_fields
    (Hveic : 0 <= CP0C3_VEIC) (Hip : 0 <= CP0Ca_IP <= 23)
    (Hmask : CP0Ca_IP_mask = 255 << CP0Ca_IP) (env : CPUMIPSState) :
  result cpu_mips_hw_interrupts_pending env =
  if Z.testbit (CP0_Config3 env) CP0C3_VEIC
  then ip_field (CP0_Cause env) >? ip_field (CP0_Status env)
  else c_true (ip_field (CP0_Cause env) .& ip_field (CP0_Status env)).
Proof.
  destruct (masked_ip_value (CP0_Cause env) Hip Hmask) as [Ec Ic].
  destruct (masked_ip_value (CP0_Status env) Hip Hmask) as [Es Is].
  unfold result, cpu_mips_hw_interrupts_pending, bind, get. cbn [fst].
  rewrite c_true_bit, Ic, Is, Ec, Es by assumption.
  assert (Hpos : 0 < 2 ^ CP0Ca_IP) by (apply Z.pow_pos_nonneg; lia).
  destruct (Z.testbit (CP0_Config3 env) CP0C3_VEIC); cbn [fst ret].
  - rewrite !Z.gtb_ltb.
    destruct (Z.ltb_spec (ip_field (CP0_Status env))
                         (ip_field (CP0_Cause env)));
      [apply Z.ltb_lt | apply Z.ltb_ge]; nia.
  - rewrite <- !Z.shiftl_mul_pow2, <- Z.shiftl_land by lia.
    unfold c_true. f_equal.
    destruct (Z.eqb_spec (ip_field (CP0_Cause env) .&
                          ip_field (CP0_Status env)) 0) as [E|E].
    + rewrite E, Z.shiftl_0_l. reflexivity.
    + apply Z.eqb_neq. rewrite Z.shiftl_eq_0_iff by lia. exact E.
Qed.

(** X9. The pending predicate reads nothing but Config3.VEIC and the two
    eight-bit interrupt fields; with no pending line it is false in
    both modes, in compatibility mode it is false when every line is
    masked, and in vectored mode it is false when the mask level is the
    highest level. *)
Theorem cpu_mips_hw_interrupts_pending_edges
    (Hveic : 0 <= CP0C3_VEIC) (Hip : 0 <= CP0Ca_IP <= 23)
    (Hmask : CP0Ca_IP_mask = 255 << CP0Ca_IP) (env : CPUMIPSState) :
  let r := result cpu_mips_hw_interrupts_pending env in
  let veic := Z.testbit (CP0_Config3 env) CP0C3_VEIC in
  (ip_field (CP0_Cause env) = 0 -> r = false) /\
  (veic = false -> ip_field (CP0_Status env) = 0 -> r = false) /\
  (veic = true -> ip_field (CP0_Status env) = 255 -> r = false) /\
  (forall env2,
     Z.testbit (CP0_Config3 env2) CP0C3_VEIC = veic ->
     ip_field (CP0_Cause env2) = ip_field (CP0_Cause env) ->
     ip_field (CP0_Status env2) = ip_field (CP0_Status env) ->
     result cpu_mips_hw_interrupts_pending env2 = r).
Proof.
  intros r veic. subst r veic.
  rewrite (pending_by_fields Hveic Hip Hmask env).
  pose proof (byte_field_range (CP0_Cause env >> CP0Ca_IP)) as Hc.
  pose proof (byte_field_range (CP0_Status env >> CP0Ca_IP)) as Hs.
  fold (ip_field (CP0_Cause env)) in Hc.
  fold (ip_field (CP0_Status env)) in Hs.
  split; [|split; [|split]].
  - intros E. rewrite E in *.
    destruct (Z.testbit (CP0_Config3 env) CP0C3_VEIC).
    + rewrite Z.gtb_ltb. apply Z.ltb_ge. lia.
    + rewrite Z.land_0_l. reflexivity.
  - intros -> ->. rewrite Z.land_0_r. reflexivity.
  - intros -> ->. rewrite Z.gtb_ltb. apply Z.ltb_ge. lia.
  - intros env2 Hv Ec Es.
    rewrite (pending_by_fields Hveic Hip Hmask env2), Hv, Ec, Es.
    reflexivity.
Qed.

End Properties.

(** * The helpers at the customary constants *)

Example compute_hflags_after_reset :
  hflags (exec (compute_hflags (K := mips32_defs)) env_reset) = 0x10000010 /\
  hflags (exec (compute_hflags (K := mips64_defs)) env_reset) = 0x10000210.
Proof. split; reflexivity. Qed.

Example compute_hflags_user_mode :
  hflags (exec (compute_hflags (K := mips64_defs)) (env_irq 0x10 0 0)) = 0x202.
Proof. reflexivity. Qed.

Example tlb_skips_invalidated :
  r4k_tlb_lookup [tlbe_dead; tlbe_live] 0x00400000 5 = Some (1%nat, tlbe_live) /\
  r4k_helper_tlbp [tlbe_dead] 0x00400000 5 = None /\
  r4k_map_address [tlbe_dead; tlbe_live] 0x00400000 false 0x123 5 MMU_DATA_LOAD =
    inr (0x00012123,
         {| PAGE_READ := true; PAGE_WRITE := true; PAGE_EXEC := true |}).
Proof. repeat split. Qed.

(** Vectored mode, pending level 5 against mask level 3. *)
Lemma cpu_mips_hw_interrupts_pending_witness :
  result (cpu_mips_hw_interrupts_pending (K := mips32_defs))
         (env_irq 0x300 0x500 0x40) = true.
Proof.
  pose proof (cpu_mips_hw_interrupts_pending_spec (K := mips32_defs)
                ltac:(cbn; lia) ltac:(cbn; lia) eq_refl
                (env_irq 0x300 0x500 0x40)) as H.
  cbv zeta in H. destruct H as (_ & _ & H & _).
  apply H; reflexivity.
Defined.

(** Status.IE and Status.ERL both set: interrupts are not enabled. *)
Lemma cpu_mips_hw_interrupts_enabled_witness :
  result (cpu_mips_hw_interrupts_enabled (K := mips32_defs))
         (env_irq 0x5 0 0) = false.
Proof.
  pose proof (cpu_mips_hw_interrupts_enabled_spec (K := mips32_defs)
                ltac:(cbn; lia) ltac:(cbn; lia) ltac:(cbn; lia)
                ltac:(cbn; lia) (env_irq 0x5 0 0)) as H.
  cbv zeta in H. destruct H as [_ H]. apply H. reflexivity.
Defined.

(** EVP, VPA and TCStatus.A set, the thread context not halted. *)
Lemma mips_vpe_active_witness :
  result (mips_vpe_active (K := mips32_defs)) vp_a = 1.
Proof.
  pose proof (mips_vpe_active_spec (K := mips32_defs)
                ltac:(cbn; lia) ltac:(cbn; lia) ltac:(cbn; lia) vp_a) as H.
  cbv zeta in H. destruct H as [H _]. apply H. repeat split.
Defined.

(** User mode in a 64-bit build: the KSU bits are the Status field. *)
Lemma compute_hflags_privilege_mode_witness :
  hflags (exec (compute_hflags (K := mips64_defs)) (env_irq 0x10 0 0))
    .& MIPS_HFLAG_KSU (cpu_h := mips64_defs) = 2.
Proof.
  assert (L : hflags_layout (K := mips64_defs))
    by (vm_compute; repeat split; reflexivity).
  pose proof (compute_hflags_privilege_mode (K := mips64_defs) L
                ltac:(cbn; lia) ltac:(cbn; lia) (env_irq 0x10 0 0)) as H.
  cbv zeta in H. destruct H as [H _]. apply H. reflexivity.
Defined.

(** After reset Status.ERL is set: kernel privilege, CP0 usable. *)
Lemma compute_hflags_kernel_forced_witness :
  hflags (exec (compute_hflags (K := mips32_defs)) env_reset)
    .& MIPS_HFLAG_KSU (cpu_h := mips32_defs) = 0 /\
  hflags (exec (compute_hflags (K := mips32_defs)) env_reset)
    .& MIPS_HFLAG_CP0 (cpu_h := mips32_defs) =
  MIPS_HFLAG_CP0 (cpu_h := mips32_defs).
Proof.
  assert (L : hflags_layout (K := mips32_defs))
    by (vm_compute; repeat split; reflexivity).
  apply (compute_hflags_kernel_forced (K := mips32_defs) L
           ltac:(cbn; lia) ltac:(cbn; lia) env_reset).
  right. left. reflexivity.
Defined.

(** C7, as the specification states it, fails: with the scan enabled the
    predicate of the specification reports [vp_a] inactive when [vp_b] has
    disabled the other virtual processors, and [mips_vp_active] reports it
    active. *)
Lemma mips_vp_active_scan_counterexample :
  ~ (result (mips_vp_active (K := mips32_defs)) vp_a =
     spec_vp_active (K := mips32_defs) true [vp_b] vp_a).
Proof.
  vm_compute. discriminate.
Qed.

(** ** Runs of the further properties *)

Lemma compute_hflags_status_flags_witness :
  c_true (hflags (exec (compute_hflags (K := mips32_defs)) env_dsp)
          .& MIPS_HFLAG_FPU (cpu_h := mips32_defs)) = true.
Proof.
  assert (L : hflags_layout (K := mips32_defs))
    by (vm_compute; repeat split; reflexivity).
  pose proof (compute_hflags_status_flags (K := mips32_defs) L
                ltac:(cbn; lia) ltac:(cbn; lia) ltac:(cbn; lia) env_dsp)
    as H.
  cbv zeta in H. destruct H as (_ & H & _). rewrite H. reflexivity.
Defined.

Lemma compute_hflags_dsp_flags_witness :
  c_true (hflags (exec (compute_hflags (K := mips32_defs)) env_dsp)
          .& MIPS_HFLAG_DSPR2 (cpu_h := mips32_defs)) = true.
Proof.
  assert (L : hflags_layout (K := mips32_defs))
    by (vm_compute; repeat split; reflexivity).
  pose proof (compute_hflags_dsp_flags (K := mips32_defs) L
                ltac:(cbn; lia) env_dsp) as H.
  cbv zeta in H. destruct H as (_ & H & _). rewrite H. reflexivity.
Defined.

Lemma compute_hflags_enable_flags_witness :
  c_true (hflags (exec (compute_hflags (K := mips32_defs)) env_lpa)
          .& MIPS_HFLAG_ELPA (cpu_h := mips32_defs)) = true.
Proof.
  assert (L : hflags_layout (K := mips32_defs))
    by (vm_compute; repeat split; reflexivity).
  pose proof (compute_hflags_enable_flags (K := mips32_defs) L
                ltac:(cbn; lia) ltac:(cbn; lia) ltac:(cbn; lia)
                ltac:(cbn; lia) ltac:(cbn; lia) env_lpa) as H.
  cbv zeta in H. destruct H as (_ & _ & H). rewrite H. reflexivity.
Defined.

Lemma compute_hflags_keeps_predicates_witness :
  result (cpu_mips_hw_interrupts_enabled (K := mips32_defs))
         (exec (compute_hflags (K := mips32_defs)) env_dsp) =
  result (cpu_mips_hw_interrupts_enabled (K := mips32_defs)) env_dsp.
Proof.
  assert (L : hflags_layout (K := mips32_defs))
    by (vm_compute; repeat split; reflexivity).
  apply (compute_hflags_keeps_predicates (K := mips32_defs) L env_dsp).
Defined.

Lemma enabled_interrupts_mode_flags_witness :
  hflags (exec (compute_hflags (K := mips32_defs)) (env_irq 0x11 0 0))
    .& MIPS_HFLAG_KSU (cpu_h := mips32_defs) = 2.
Proof.
  assert (L : hflags_layout (K := mips32_defs))
    by (vm_compute; repeat split; reflexivity).
  pose proof (enabled_interrupts_mode_flags (K := mips32_defs) L
                ltac:(cbn; lia) ltac:(cbn; lia) (env_irq 0x11 0 0) eq_refl)
    as H.
  cbv zeta in H. destruct H as (H & _). exact H.
Defined.

Lemma compute_hflags_32bit_build_witness :
  hflags (exec (compute_hflags (K := mips32_defs)) env_dsp)
    .& MIPS_HFLAG_64 (cpu_h := mips32_defs) = 0.
Proof.
  assert (L : hflags_layout (K := mips32_defs))
    by (vm_compute; repeat split; reflexivity).
  pose proof (compute_hflags_32bit_build (K := mips32_defs) L
                ltac:(cbn; lia) ltac:(cbn; lia) env_dsp eq_refl) as H.
  cbv zeta in H. destruct H as (H & _). exact H.
Defined.

Lemma compute_hflags_full_recompute_witness :
  exec (compute_hflags (K := mips32_defs)) env_reset =
  exec (compute_hflags (K := mips32_defs)) env_stale.
Proof.
  apply (compute_hflags_full_recompute (K := mips32_defs)).
  - repeat split.
  - intros i Hi Hc. destruct (Z.eq_dec i 4) as [->|Hne].
    + vm_compute in Hc. discriminate.
    + change (hflags env_reset) with 0. change (hflags env_stale) with (2 ^ 4).
      rewrite Z.bits_0, Z.pow2_bits_false by lia. reflexivity.
Defined.

Lemma cpu_mips_hw_interrupts_pending_edges_witness :
  result (cpu_mips_hw_interrupts_pending (K := mips32_defs))
         (env_irq 0x301 0x40000000 0x40) = false.
Proof.
  pose proof (cpu_mips_hw_interrupts_pending_edges (K := mips32_defs)
                ltac:(cbn; lia) ltac:(cbn; lia) eq_refl
                (env_irq 0x301 0x40000000 0x40)) as H.
  cbv zeta in H. destruct H as (H & _). apply H. reflexivity.
Defined.

Lemma compute_hflags_then_restore_pamask_witness :
  PAMask (exec (compute_hflags (K := mips32_defs) ;;
                restore_pamask (K := mips32_defs) pamask_base_36) env_lpa) =
  0xFFFFFFFFFF.
Proof.
  assert (L : hflags_layout (K := mips32_defs))
    by (vm_compute; repeat split; reflexivity).
  pose proof (compute_hflags_then_restore_pamask (K := mips32_defs) L
                ltac:(cbn; lia) ltac:(cbn; lia) pamask_base_36 env_lpa
                ltac:(cbn; lia)) as H.
  cbv zeta in H. destruct H as [H _]. rewrite H. reflexivity.
Defined.

Lemma restore_pamask_spec_witness :
  PAMask (exec (restore_pamask (K := mips32_defs) pamask_base_36) env_elpa) =
  0xFFFFFFFFFF.
Proof.
  pose proof (restore_pamask_spec (K := mips32_defs) pamask_base_36 env_elpa
                ltac:(cbn; lia)) as H.
  cbv zeta in H. destruct H as (_ & H & _).
  destruct H as [H _]; [vm_compute; discriminate|].
  rewrite H. reflexivity.
Defined.

Lemma compute_hflags_forced_kernel_64bit_witness :
  hflags (exec (compute_hflags (K := mips64_defs)) env_mips4_exl)
    .& MIPS_HFLAG_64 (cpu_h := mips64_defs) =
  MIPS_HFLAG_64 (cpu_h := mips64_defs).
Proof.
  assert (L : hflags_layout (K := mips64_defs))
    by (vm_compute; repeat split; reflexivity).
  pose proof (compute_hflags_forced_kernel_64bit (K := mips64_defs) L
                ltac:(cbn; lia) ltac:(cbn; lia) env_mips4_exl
                eq_refl ltac:(vm_compute; discriminate) eq_refl eq_refl)
    as H.
  cbv zeta in H. destruct H as (H & _). exact H.
Defined.
